(** * trello-cron-organiser: due-date classification and the organise pass

    A shallow embedding of [src/index.js].  The file has three layers:

    - [JSDate]: the part of ECMAScript's [Date] the program calls
      ([new Date], [setHours], [getDay], [getDate], [setDate], [getTime]),
      over time values in milliseconds since the epoch and a host time zone;
    - the classifier: [getStartOfDay], [getEndOfDay], [getWeekBoundaries],
      [determineTargetList];
    - the organise pass: [getAllCards], [moveCard], [organizeCards] in a
      small state-and-exception monad over a model of the host (clock,
      network, console) and of the board behind the API.
*)

From Stdlib Require Import ZArith Lia Bool List String.
From stdpp Require Import base numbers list strings gmap.

Local Open Scope Z_scope.

(** ** ECMAScript dates *)

Module JSDate.

(** A time value: milliseconds since 1970-01-01T00:00:00Z.  [TimeClip]'s
    range check (|t| <= 8.64e15) is not modelled: arithmetic is over [Z]. *)
Definition time := Z.

Definition msPerSecond : Z := 1000.
Definition msPerMinute : Z := 60000.
Definition msPerHour : Z := 3600000.
Definition msPerDay : Z := 86400000.

(** Day(t) and TimeWithinDay(t). *)
Definition Day (t : Z) : Z := t / msPerDay.
Definition TimeWithinDay (t : Z) : Z := t mod msPerDay.

(** WeekDay(t): 0 is Sunday, 1 Monday, ... 6 Saturday. *)
Definition WeekDay (t : Z) : Z := (Day t + 4) mod 7.

(** MakeTime and MakeDate on integral arguments. *)
Definition MakeTime (h m s ms : Z) : Z :=
  h * msPerHour + m * msPerMinute + s * msPerSecond + ms.
Definition MakeDate (day tm : Z) : Z := day * msPerDay + tm.

(** *** The civil calendar *)

Definition leap (y : Z) : bool :=
  ((y mod 4 =? 0) && negb (y mod 100 =? 0)) || (y mod 400 =? 0).

Definition DaysInYear (y : Z) : Z := if leap y then 366 else 365.

Definition DayFromYear (y : Z) : Z :=
  365 * (y - 1970) + (y - 1969) / 4 - (y - 1901) / 100 + (y - 1601) / 400.

(** YearFromTime: the largest [y] with [DayFromYear y <= Day t].  The
    quotient by the mean year length is at most one off. *)
Definition YearFromDay (d : Z) : Z :=
  let y := 1970 + (d * 400) / 146097 in
  if d <? DayFromYear y then y - 1
  else if DayFromYear (y + 1) <=? d then y + 1
  else y.
Definition YearFromTime (t : Z) : Z := YearFromDay (Day t).

Definition InLeapYear (t : Z) : bool := leap (YearFromTime t).
Definition DayWithinYear (t : Z) : Z := Day t - DayFromYear (YearFromTime t).

(** First day-within-year of month [m] (0 = January). *)
Definition monthStart (lp : bool) (m : Z) : Z :=
  let l := if lp then 1 else 0 in
  if m <=? 0 then 0
  else if m =? 1 then 31
  else if m =? 2 then 59 + l
  else if m =? 3 then 90 + l
  else if m =? 4 then 120 + l
  else if m =? 5 then 151 + l
  else if m =? 6 then 181 + l
  else if m =? 7 then 212 + l
  else if m =? 8 then 243 + l
  else if m =? 9 then 273 + l
  else if m =? 10 then 304 + l
  else 334 + l.

Definition MonthFromTime (t : Z) : Z :=
  let d := DayWithinYear t in
  let l := if InLeapYear t then 1 else 0 in
  if d <? 31 then 0
  else if d <? 59 + l then 1
  else if d <? 90 + l then 2
  else if d <? 120 + l then 3
  else if d <? 151 + l then 4
  else if d <? 181 + l then 5
  else if d <? 212 + l then 6
  else if d <? 243 + l then 7
  else if d <? 273 + l then 8
  else if d <? 304 + l then 9
  else if d <? 334 + l then 10
  else 11.

Definition DateFromTime (t : Z) : Z :=
  DayWithinYear t - monthStart (InLeapYear t) (MonthFromTime t) + 1.

(** MakeDay(year, month, date): the day number of the first of the month
    (months beyond 0..11 carry into the year) plus [date - 1]. *)
Definition MakeDay (year month date : Z) : Z :=
  let ym := year + month / 12 in
  let mn := month mod 12 in
  DayFromYear ym + monthStart (leap ym) mn + date - 1.

(** *** Local time

    ECMAScript leaves the host's zone to the implementation as
    [LocalTZA(t, isUTC)]: the offset of local time from UTC at the UTC
    instant [t] ([isUTC = true]) or at the local reading [t]
    ([isUTC = false]). *)
Record TimeZone := { LocalTZA : Z -> bool -> Z }.

Definition LocalTime (z : TimeZone) (t : Z) : Z := t + LocalTZA z t true.
Definition UTC (z : TimeZone) (t : Z) : Z := t - LocalTZA z t false.

(** A zone whose clocks read [off] ahead of UTC until the instant [at]
    and [off + delta] from then on: one daylight-saving transition
    ([delta > 0]: clocks go forward, [delta < 0]: back).  A local reading
    that is skipped or repeated by the transition is interpreted with the
    offset before the transition, as ECMAScript requires. *)
Definition shifting (off at_ delta : Z) : TimeZone :=
  {| LocalTZA := fun t isUTC =>
       if isUTC
       then (if t <? at_ then off else off + delta)
       else (if t <? at_ + off + Z.max delta 0 then off else off + delta) |}.

(** A zone without transitions. *)
Definition fixed (off : Z) : TimeZone := shifting off 0 0.

(** *** The [Date] methods the program calls

    A [Date] object is represented by its time value; the program never
    shares a [Date] between two names after mutating it, so each mutator
    is a function returning the new time value. *)

(** [d.setHours(h, m, s, ms)] *)
Definition setHours (z : TimeZone) (t h m s ms : Z) : Z :=
  UTC z (MakeDate (Day (LocalTime z t)) (MakeTime h m s ms)).

(** [d.getDay()] *)
Definition getDay (z : TimeZone) (t : Z) : Z := WeekDay (LocalTime z t).

(** [d.getDate()] *)
Definition getDate (z : TimeZone) (t : Z) : Z := DateFromTime (LocalTime z t).

(** [d.setDate(dt)] *)
Definition setDate (z : TimeZone) (t dt : Z) : Z :=
  let lt := LocalTime z t in
  UTC z (MakeDate (MakeDay (YearFromTime lt) (MonthFromTime lt) dt)
                  (TimeWithinDay lt)).

End JSDate.

Import JSDate.

(** ** The classifier *)

(** The six list names [determineTargetList] returns. *)
Inductive TargetList :=
  Overdue | Today | Tomorrow | ThisWeek | NextWeek | Later.

#[global] Instance TargetList_eq_dec : EqDecision TargetList.
Proof. solve_decision. Defined.

(** The string each name is in the source; the keys of [LIST_MAPPING]. *)
Definition listName (b : TargetList) : string :=
  match b with
  | Overdue => "Overdue"
  | Today => "Today"
  | Tomorrow => "Tomorrow"
  | ThisWeek => "This week"
  | NextWeek => "Next week"
  | Later => "Later"
  end.

Record WeekBoundaries := { start : Z; end_ : Z }.

Section Classifier.

Variable z : TimeZone.

Definition getStartOfDay (date : Z) : Z :=
  let start := date in
  setHours z start 0 0 0 0.

Definition getEndOfDay (date : Z) : Z :=
  let end_ := date in
  setHours z end_ 23 59 59 999.

Definition getWeekBoundaries (date : Z) : WeekBoundaries :=
  let start := date in
  let day := getDay z start in
  let diff := getDate z start - day + (if day =? 0 then -6 else 1) in
  let weekStart := setDate z start diff in
  let weekEnd := setDate z weekStart (getDate z weekStart + 6) in
  {| start := getStartOfDay weekStart; end_ := getEndOfDay weekEnd |}.

(** [determineTargetList(dueDate)], with the clock reading [new Date()]
    made a parameter.  [dueDate] is [card.due]: [null] ([None]) or a
    timestamp, given here by the time value [new Date(dueDate)] has. *)
Definition determineTargetList (now : Z) (dueDate : option Z) : TargetList :=
  match dueDate with
  | None => Later
  | Some due =>
    let today := getStartOfDay now in
    let tomorrow := setDate z today (getDate z today + 1) in
    let currentWeek := getWeekBoundaries now in
    let nextWeek := getWeekBoundaries (now + 7 * 24 * 60 * 60 * 1000) in
    if due <? today then Overdue
    else if (today <=? due) && (due <? getEndOfDay today) then Today
    else if (tomorrow <=? due) && (due <? getEndOfDay tomorrow) then Tomorrow
    else if (getEndOfDay tomorrow <=? due) && (due <=? end_ currentWeek) then ThisWeek
    else if (start nextWeek <=? due) && (due <=? end_ nextWeek) then NextWeek
    else Later
  end.

End Classifier.

(** ** The host and the board behind the API *)

(** A card as the API returns it ([fields=id,name,due,idList]). *)
Module Card.
Record t := { id : string; name : string; due : option Z; idList : string }.
End Card.
Abbreviation Card := Card.t.

(** The JSON values of the model: [null], one card object, an array of
    card objects.  The other JSON values a body can hold (booleans,
    numbers, strings, arrays with elements that are no card objects) are
    outside the model: every statement about a body is about these
    three. *)
Inductive Json := JNull | JCard (c : Card) | JCards (cs : list Card).

(** What [fetch] resolves to; [body = None] when the body is not JSON. *)
Record Response := { status : Z; body : option Json }.

(** [response.ok] *)
Definition ok (r : Response) : bool := (200 <=? status r) && (status r <=? 299).

Inductive Request :=
| GetCards                              (* GET /1/boards/BOARD_ID/cards *)
| PutCard (cardId listId : string).     (* PUT /1/cards/cardId {idList} *)

(** How one HTTP exchange ends: the API performs the request, or something
    on the way answers in its place (a rate limit, a server error, a
    proxy), or no answer arrives. *)
Inductive Reply := Served | Answer (r : Response) | Dropped.

Record Exchange := { took : N; reply : Reply }.

Inductive Exn :=
| HTTPError (status : Z)   (* new Error(`HTTP error! status: ${response.status}`) *)
| FetchError               (* fetch rejects *)
| SyntaxError              (* response.json() rejects *)
| TypeError.

(** The console lines of the organise pass. *)
Inductive Line :=
| LogStarting                              (* 'Starting card organization...' *)
| LogFound (length : option nat)           (* `Found ${cards.length} cards` *)
| WarnNoListId (targetListName : string)   (* `No list ID configured for "${targetListName}"` *)
| LogMoving (name targetListName : string) (* `Moving card "${card.name}" to "${targetListName}"` *)
| LogComplete (movedCount errorCount : nat)
    (* `Card organization complete. Moved: ${movedCount}, Errors: ${errorCount}` *)
| ErrFetchingCards (error : Exn)           (* 'Error fetching cards:', error *)
| ErrMovingCard (cardId : string) (error : Exn) (* `Error moving card ${cardId}:`, error *)
| ErrOrganizing (error : Exn).             (* 'Error organizing cards:', error *)

(** What the process does to its surroundings, in order. *)
Inductive Event :=
| Console (l : Line)
| Fetch (rq : Request) (result : option Response)
| Sleep (ms : Z).

Record World := {
  clock : Z;               (* the host clock, ms since the epoch *)
  board : list Card;       (* the cards of the board, as the API holds them *)
  wire : list Exchange;    (* how the coming HTTP exchanges will go *)
  late : list N;           (* by how much the coming timers fire late *)
  trace : list Event       (* what has happened so far *)
}.

Definition relist (cardId listId : string) (c : Card) : Card :=
  if String.eqb (Card.id c) cardId
  then {| Card.id := Card.id c; Card.name := Card.name c;
          Card.due := Card.due c; Card.idList := listId |}
  else c.

(** The API performing a request on the board. *)
Definition serve (rq : Request) (b : list Card) : Response * list Card :=
  match rq with
  | GetCards => ({| status := 200; body := Some (JCards b) |}, b)
  | PutCard cardId listId =>
    match find (fun c => String.eqb (Card.id c) cardId) b with
    | Some c => ({| status := 200; body := Some (JCard (relist cardId listId c)) |},
                 map (relist cardId listId) b)
    | None => ({| status := 404; body := None |}, b)
    end
  end.

(** ** Asynchronous code with exceptions

    An [async] function body is a computation over the world that
    completes normally or throws; [await] is sequencing. *)

Inductive Completion (A : Type) := Normal (a : A) | Throw (e : Exn).
Arguments Normal {A} a.
Arguments Throw {A} e.

Definition Js (A : Type) : Type := World -> Completion A * World.

Definition ret {A} (a : A) : Js A := fun w => (Normal a, w).
Definition throw {A} (e : Exn) : Js A := fun w => (Throw e, w).
Definition bind {A B} (m : Js A) (k : A -> Js B) : Js B :=
  fun w => match m w with
           | (Normal a, w') => k a w'
           | (Throw e, w') => (Throw e, w')
           end.
Definition try_catch {A} (m : Js A) (h : Exn -> Js A) : Js A :=
  fun w => match m w with
           | (Normal a, w') => (Normal a, w')
           | (Throw e, w') => h e w'
           end.

Notation "'let*' x ':=' m 'in' k" := (bind m (fun x => k))
  (at level 10, x name, m at level 100, k at level 200).
Notation "'do' m 'then' k" := (bind m (fun _ => k))
  (at level 10, m at level 100, k at level 200).

Definition emit (ev : Event) (w : World) : World :=
  {| clock := clock w; board := board w; wire := wire w; late := late w;
     trace := trace w ++ [ev] |}.

Definition console (l : Line) : Js unit := fun w => (Normal tt, emit (Console l) w).

(** [new Date()] *)
Definition newDate : Js Z := fun w => (Normal (clock w), w).

(** The exchange the next request gets; once [wire] is used up every
    request is served at once. *)
Definition nextExchange (w : World) : Exchange :=
  hd {| took := 0%N; reply := Served |} (wire w).

(** [fetch(url, options)] *)
Definition fetch (rq : Request) : Js Response := fun w =>
  let x := nextExchange w in
  let after b :=
    {| clock := clock w + Z.of_N (took x); board := b; wire := tl (wire w);
       late := late w; trace := trace w |} in
  match reply x with
  | Dropped => (Throw FetchError, emit (Fetch rq None) (after (board w)))
  | Answer r => (Normal r, emit (Fetch rq (Some r)) (after (board w)))
  | Served => let '(r, b) := serve rq (board w) in
              (Normal r, emit (Fetch rq (Some r)) (after b))
  end.

(** [response.json()] *)
Definition json (r : Response) : Js Json :=
  match body r with
  | Some j => ret j
  | None => throw SyntaxError
  end.

(** [new Promise(resolve => setTimeout(resolve, ms))] *)
Definition setTimeout (ms : Z) : Js unit := fun w =>
  (Normal tt,
   emit (Sleep ms)
     {| clock := clock w + ms + Z.of_N (hd 0%N (late w)); board := board w;
        wire := wire w; late := tl (late w); trace := trace w |}).

(** ** The organise pass *)

(** [if (result)] on a JSON value of the model: [null] is falsy, an
    object or an array is truthy. *)
Definition truthy (result : Json) : bool :=
  match result with JNull => false | _ => true end.

Section Organizer.

(** The host's time zone. *)
Variable z : TimeZone.

(** [LIST_MAPPING]: list name to list id, read once from the environment;
    a name whose variable is unset has no entry ([undefined]). *)
Variable LIST_MAPPING : gmap string string.

Definition getAllCards : Js Json :=
  try_catch
    (let* response := fetch GetCards in
     do (if negb (ok response) then throw (HTTPError (status response)) else ret tt) then
     let* cards := json response in
     ret cards)
    (fun error =>
     do console (ErrFetchingCards error) then
     ret (JCards [])).

Definition moveCard (cardId listId : string) : Js Json :=
  try_catch
    (let* response := fetch (PutCard cardId listId) in
     do (if negb (ok response) then throw (HTTPError (status response)) else ret tt) then
     json response)
    (fun error =>
     do console (ErrMovingCard cardId error) then
     ret JNull).

(** One turn of the [for (const card of cards)] loop, on the counters
    [(movedCount, errorCount)]. *)
Definition organizeCard (card : Card) (counts : nat * nat) : Js (nat * nat) :=
  let '(movedCount, errorCount) := counts in
  let* now := newDate in
  let targetListName := determineTargetList z now (Card.due card) in
  match LIST_MAPPING !! listName targetListName with
  | None =>
    do console (WarnNoListId (listName targetListName)) then
    ret (movedCount, errorCount)
  | Some targetListId =>
    if String.eqb targetListId "" then
      do console (WarnNoListId (listName targetListName)) then
      ret (movedCount, errorCount)
    else if negb (String.eqb (Card.idList card) targetListId) then
      do console (LogMoving (Card.name card) (listName targetListName)) then
      let* result := moveCard (Card.id card) targetListId in
      let counts' := if truthy result then (S movedCount, errorCount)
                     else (movedCount, S errorCount) in
      do setTimeout 100 then
      ret counts'
    else ret (movedCount, errorCount)
  end.

Fixpoint organizeLoop (cards : list Card) (counts : nat * nat) : Js (nat * nat) :=
  match cards with
  | [] => ret counts
  | card :: rest =>
    let* counts' := organizeCard card counts in
    organizeLoop rest counts'
  end.

Definition organizeCards : Js unit :=
  do console LogStarting then
  let* cards := getAllCards in
  let* length :=
    match cards with
    | JNull => throw TypeError
    | JCard _ => ret None
    | JCards cs => ret (Some (length cs))
    end in
  do console (LogFound length) then
  let* counts :=
    match cards with
    | JCards cs => organizeLoop cs (0, 0)%nat
    | _ => throw TypeError
    end in
  do console (LogComplete (fst counts) (snd counts)) then
  ret tt.

(** The handler of [GET /organize]: the status and the [success] field of
    its JSON answer. *)
Definition organizeRoute : Js (Z * bool) :=
  try_catch
    (do organizeCards then
     ret (200, true))
    (fun error =>
     do console (ErrOrganizing error) then
     ret (500, false)).

End Organizer.

(** ** The classifier as the specification words it

    Local days are numbered from the epoch; the [k]-th local day runs from
    its 00:00:00.000 to its 23:59:59.999. *)

Module Spec.

Section Classify.

Variable z : TimeZone.

Definition localDay (t : Z) : Z := Day (LocalTime z t).
Definition startOfLocalDay (k : Z) : Z := UTC z (MakeDate k 0).
Definition endOfLocalDay (k : Z) : Z := UTC z (MakeDate k 86399999).

(** The Monday that starts the week of local day [d], by the
    Sunday-adjustment rule: a Sunday (day of week 0) goes back six days,
    any other day goes back to day of week 1. *)
Definition mondayOf (d : Z) : Z :=
  let dayOfWeek := (d + 4) mod 7 in
  d - dayOfWeek + (if dayOfWeek =? 0 then -6 else 1).

(** Monday 00:00:00.000 to Sunday 23:59:59.999 of the week containing [t]. *)
Definition weekOf (t : Z) : WeekBoundaries :=
  {| start := startOfLocalDay (mondayOf (localDay t));
     end_ := endOfLocalDay (mondayOf (localDay t) + 6) |}.

(** The ordered interval rules of the decision list. *)
Definition rules (now : Z) : list ((Z -> bool) * TargetList) :=
  let today := startOfLocalDay (localDay now) in
  let endOfToday := endOfLocalDay (localDay now) in
  let tomorrow := startOfLocalDay (localDay now + 1) in
  let endOfTomorrow := endOfLocalDay (localDay now + 1) in
  let currentWeek := weekOf now in
  let nextWeek := weekOf (now + 7 * msPerDay) in
  [ (fun due => due <? today, Overdue);
    (fun due => (today <=? due) && (due <? endOfToday), Today);
    (fun due => (tomorrow <=? due) && (due <? endOfTomorrow), Tomorrow);
    (fun due => (endOfTomorrow <=? due) && (due <=? end_ currentWeek), ThisWeek);
    (fun due => (start nextWeek <=? due) && (due <=? end_ nextWeek), NextWeek) ].

(** First match wins; otherwise [Later]. *)
Fixpoint firstMatch (rs : list ((Z -> bool) * TargetList)) (due : Z) : TargetList :=
  match rs with
  | [] => Later
  | (holds, bucket) :: rest => if holds due then bucket else firstMatch rest due
  end.

Definition classify (due : option Z) (now : Z) : TargetList :=
  match due with
  | None => Later
  | Some t => firstMatch (rules now) t
  end.

End Classify.

End Spec.


(** ** Zones with an ordinary daylight-saving transition

    The transition of [shifting off at_ delta] is ordinary when the local
    readings it skips or repeats, and the readings a skipped one is
    taken for, lie inside one local day and after its first millisecond:
    clocks change in the small hours, as they do in practice.  A zone
    without transition ([delta = 0]) is ordinary. *)
Definition regular (off at_ delta : Z) : Prop :=
  delta = 0 \/
  (let a := at_ + off in
   Day (Z.min a (a + delta)) = Day (Z.max a (a + 2 * delta)) /\
   0 < TimeWithinDay (Z.min a (a + delta))).

(** US Eastern time around the start of daylight saving 2024: UTC-5 until
    2024-03-10T07:00:00Z (02:00 local), UTC-4 after. *)
Definition easternSpring2024 : TimeZone := shifting (-18000000) 1710054000000 3600000.


(** US Eastern time around the end of daylight saving 2024: UTC-4 until
    2024-11-03T06:00:00Z (02:00 local), UTC-5 after. *)
Definition easternAutumn2024 : TimeZone := shifting (-14400000) 1730613600000 (-3600000).

(** ** Reading a trace *)

(** A request to move a card. *)
Definition isPut (ev : Event) : bool :=
  match ev with Fetch (PutCard _ _) _ => true | _ => false end.

(** A request to move a card that [moveCard] reports as done: an answer
    arrived, its status is 2xx and its body is JSON other than [null]. *)
Definition moveSucceeded (ev : Event) : bool :=
  match ev with
  | Fetch (PutCard _ _) (Some r) =>
    ok r && match body r with Some j => truthy j | None => false end
  | _ => false
  end.

Definition moveFailed (ev : Event) : bool := isPut ev && negb (moveSucceeded ev).

Definition isSleep (ev : Event) : bool :=
  match ev with Sleep _ => true | _ => false end.

(** The warning for a list name without list id. *)
Definition isWarning (ev : Event) : bool :=
  match ev with Console (WarnNoListId _) => true | _ => false end.

Definition count (p : Event -> bool) (evs : list Event) : nat :=
  length (filter (fun ev => p ev = true) evs).

(** ** What a turn of the loop has to do *)

Inductive Verdict :=
| Unmapped                   (* no list id for the card's list name *)
| InPlace                    (* the card is in the list it belongs to *)
| MoveTo (listId : string).  (* the card belongs to another list *)

(** The case [organizeCard] is in for [card] when the clock reads [now]. *)
Definition verdict (z : TimeZone) (LIST_MAPPING : gmap string string)
    (now : Z) (card : Card) : Verdict :=
  match LIST_MAPPING !! listName (determineTargetList z now (Card.due card)) with
  | None => Unmapped
  | Some targetListId =>
    if String.eqb targetListId "" then Unmapped
    else if String.eqb (Card.idList card) targetListId then InPlace
    else MoveTo targetListId
  end.

(** [loop] takes the cards up one after another, in order, each turn
    [body] starting with the counters and in the world the turn before
    ended with, and ends with the counters and in the world of the last
    turn. *)
Definition isCardLoop (body : Card -> nat * nat -> Js (nat * nat))
    (loop : list Card -> nat * nat -> Js (nat * nat)) : Prop :=
  (forall counts w, loop [] counts w = (Normal counts, w)) /\
  (forall card rest counts w,
     loop (card :: rest) counts w = bind (body card counts) (loop rest) w).

(** The world once the 100 ms timer of the loop has fired. *)
Definition slept (w : World) : World := snd (setTimeout 100 w).

(** The next exchange makes [getAllCards] fail: no answer, a status
    outside 2xx, or a body that is not JSON. *)
Definition listingFails (w : World) : bool :=
  match reply (nextExchange w) with
  | Dropped => true
  | Answer r => negb (ok r) || match body r with None => true | Some _ => false end
  | Served => false
  end.

(** The events of [w'] that [w] does not have yet. *)
Definition since (w w' : World) : list Event := drop (length (trace w)) (trace w').

(** The counters [counts'] are [counts] plus the moves done and the moves
    failed among the events [evs]. *)
Definition tallies (evs : list Event) (counts counts' : nat * nat) : Prop :=
  fst counts' = (fst counts + count moveSucceeded evs)%nat /\
  snd counts' = (snd counts + count moveFailed evs)%nat.

(** ** The boundaries [determineTargetList] computes, by name *)

Definition today (z : TimeZone) (now : Z) : Z := getStartOfDay z now.
Definition tomorrow (z : TimeZone) (now : Z) : Z :=
  setDate z (today z now) (getDate z (today z now) + 1).
Definition currentWeek (z : TimeZone) (now : Z) : WeekBoundaries :=
  getWeekBoundaries z now.
Definition nextWeek (z : TimeZone) (now : Z) : WeekBoundaries :=
  getWeekBoundaries z (now + 7 * 24 * 60 * 60 * 1000).


(** ** Two runs *)

(** The world [dt] milliseconds later, nothing else having happened. *)
Definition elapse (dt : N) (w : World) : World :=
  {| clock := clock w + Z.of_N dt; board := board w; wire := wire w;
     late := late w; trace := trace w |}.

(** Two instants with the same local date, and the same local date seven
    times 24 hours on: all the classifier looks at. *)
Definition sameDate (z : TimeZone) (t t' : Z) : Prop :=
  Spec.localDay z t = Spec.localDay z t' /\
  Spec.localDay z (t + 7 * msPerDay) = Spec.localDay z (t' + 7 * msPerDay).

(** From instant [t] to instant [T] every due date keeps the list it has
    at [t]. *)
Definition steady (z : TimeZone) (t T : Z) : Prop :=
  forall (t' : Z) (due : option Z),
    t <= t' <= T -> determineTargetList z t' due = determineTargetList z t due.

(** The API performs every coming request. *)
Definition allServed (w : World) : Prop :=
  Forall (fun x => reply x = Served) (wire w).

(** ** Sample data *)

(** All six lists configured. *)
Definition sampleMapping : gmap string string :=
  list_to_map
    [("Overdue", "list-overdue"); ("Today", "list-today");
     ("Tomorrow", "list-tomorrow"); ("This week", "list-this-week");
     ("Next week", "list-next-week"); ("Later", "list-later")].

(** [LATER_LIST_ID] left unset. *)
Definition mappingWithoutLater : gmap string string :=
  list_to_map
    [("Overdue", "list-overdue"); ("Today", "list-today");
     ("Tomorrow", "list-tomorrow"); ("This week", "list-this-week");
     ("Next week", "list-next-week")].

(** Monday 2024-03-04, 04:30:00 UTC. *)
Definition sampleNow : Z := 1709526600000.

Definition cardA : Card :=
  {| Card.id := "A"; Card.name := "write report"; Card.due := None;
     Card.idList := "list-inbox" |}.
(** Due Sunday 2024-03-03, 12:00 UTC. *)
Definition cardB : Card :=
  {| Card.id := "B"; Card.name := "pay invoice"; Card.due := Some 1709467200000;
     Card.idList := "list-inbox" |}.
(** Due Monday 2024-03-04, 18:00 UTC. *)
Definition cardC : Card :=
  {| Card.id := "C"; Card.name := "call bank"; Card.due := Some 1709575200000;
     Card.idList := "list-inbox" |}.
(** Due Tuesday 2024-03-05, 09:00 UTC. *)
Definition cardD : Card :=
  {| Card.id := "D"; Card.name := "book room"; Card.due := Some 1709629200000;
     Card.idList := "list-inbox" |}.

Definition quiet (b : list Card) (wire : list Exchange) : World :=
  {| clock := sampleNow; board := b; wire := wire; late := []; trace := [] |}.

(** Four misplaced cards; the moves of B and D fail (a rate limit, a
    dropped connection), those of A and C are served. *)
Definition fourCards : World :=
  quiet [cardA; cardB; cardC; cardD]
    [ {| took := 120; reply := Served |};
      {| took := 80; reply := Served |};
      {| took := 15; reply := Answer {| status := 429; body := None |} |};
      {| took := 90; reply := Served |};
      {| took := 3000; reply := Dropped |} ]%N.

(** The listing is refused. *)
Definition listingRefused : World :=
  quiet [cardA; cardB]
    [ {| took := 40%N; reply := Answer {| status := 401; body := None |} |} ].

(** One misplaced card whose first move is answered with a server error. *)
Definition firstMoveFails : World :=
  quiet [cardB]
    [ {| took := 120; reply := Served |};
      {| took := 30; reply := Answer {| status := 500; body := None |} |} ]%N.

(** The card as a run leaves it when the API performs the move the card
    needs at instant [now]. *)
Definition settle (z : TimeZone) (LIST_MAPPING : gmap string string)
    (now : Z) (card : Card) : Card :=
  match verdict z LIST_MAPPING now card with
  | MoveTo listId => relist (Card.id card) listId card
  | _ => card
  end.

(** A card without due date that sits in the list for Later. *)
Definition cardE : Card :=
  {| Card.id := "E"; Card.name := "tidy desk"; Card.due := None;
     Card.idList := "list-later" |}.

(** ** More ways to read a trace *)

(** The request for the cards of the board. *)
Definition isGet (ev : Event) : bool :=
  match ev with Fetch GetCards _ => true | _ => false end.

(** The cards the move requests of a trace are for, in order. *)
Definition putIds (evs : list Event) : list string :=
  omap (fun ev => match ev with
                  | Fetch (PutCard cardId _) _ => Some cardId
                  | _ => None
                  end) evs.

(** The rhythm of a trace: its move requests and its timers. *)
Inductive Beat := Move | Pause (ms : Z).

Definition pace (evs : list Event) : list Beat :=
  omap (fun ev => match ev with
                  | Fetch (PutCard _ _) _ => Some Move
                  | Sleep ms => Some (Pause ms)
                  | _ => None
                  end) evs.

(** The listing is answered with a 2xx status and JSON that is no array
    ([null] or an object). *)
Definition listingMalformed (w : World) : bool :=
  match reply (nextExchange w) with
  | Answer r =>
    ok r && match body r with
            | Some JNull | Some (JCard _) => true
            | _ => false
            end
  | _ => false
  end.

(** ** Proof automation *)

(** Linear arithmetic with division and remainder by constants. *)
Ltac zarith := Z.div_mod_to_equations; lia.

(** Case analysis on the comparisons of the goal. *)
Ltac split_ltb :=
  repeat match goal with
  | |- context [?a <? ?b] => destruct (Z.ltb_spec a b)
  | |- context [?a <=? ?b] => destruct (Z.leb_spec a b)
  | |- context [?a =? ?b] => destruct (Z.eqb_spec a b)
  end.

(** Local time of a [shifting] zone, down to arithmetic. *)
Ltac zone_unfold :=
  unfold regular, LocalTime, UTC, shifting, LocalTZA, MakeDate, Day,
    TimeWithinDay, msPerDay in *;
  cbv zeta in *.

Ltac zone_arith := zone_unfold; split_ltb; try lia; zarith.

(** The end of a proof about one request: the world and trace it leaves. *)
Ltac close_spec :=
  unfold ret, console, emit; simpl; rewrite <- ?app_assoc; simpl;
  repeat split; eauto.
(** ** Arithmetic of the calendar and of local time *)

Lemma YearFromDay_spec (d : Z) :
  DayFromYear (YearFromDay d) <= d < DayFromYear (YearFromDay d + 1).
Proof.
  unfold YearFromDay; cbv zeta.
  set (y := 1970 + d * 400 / 146097).
  assert (Hy : 146097 * (y - 1970) <= d * 400 < 146097 * (y - 1970) + 146097)
    by (unfold y; zarith).
  clearbody y.
  destruct (Z.ltb_spec d (DayFromYear y)) as [Hlt | Hge].
  - replace (y - 1 + 1) with y by lia. unfold DayFromYear in *. zarith.
  - destruct (Z.leb_spec (DayFromYear (y + 1)) d); unfold DayFromYear in *; zarith.
Qed.

Lemma DaysInYear_step (y : Z) : DayFromYear (y + 1) = DayFromYear y + DaysInYear y.
Proof.
  unfold DayFromYear, DaysInYear, leap.
  split_ltb; cbn [andb orb negb]; zarith.
Qed.

Lemma DayWithinYear_range (t : Z) :
  0 <= DayWithinYear t < DaysInYear (YearFromTime t).
Proof.
  unfold DayWithinYear, YearFromTime.
  pose proof (YearFromDay_spec (Day t)) as H.
  rewrite DaysInYear_step in H. lia.
Qed.

Lemma MonthFromTime_range (t : Z) : 0 <= MonthFromTime t <= 11.
Proof. unfold MonthFromTime; cbv zeta. split_ltb; lia. Qed.

Lemma DateFromTime_range (t : Z) : 1 <= DateFromTime t <= 31.
Proof.
  pose proof (DayWithinYear_range t) as H.
  unfold DateFromTime, MonthFromTime, monthStart, InLeapYear, DaysInYear in *.
  cbv zeta. destruct (leap (YearFromTime t)); split_ltb; lia.
Qed.

(** Setting the day of the month to the current one plus [k] moves the
    day number by [k], across months and years. *)
Lemma MakeDay_DateFromTime (t k : Z) :
  MakeDay (YearFromTime t) (MonthFromTime t) (DateFromTime t + k) = Day t + k.
Proof.
  pose proof (MonthFromTime_range t) as Hm.
  unfold MakeDay; cbv zeta.
  replace (MonthFromTime t / 12) with 0 by zarith.
  replace (MonthFromTime t mod 12) with (MonthFromTime t) by zarith.
  rewrite Z.add_0_r.
  unfold DateFromTime, DayWithinYear, InLeapYear. lia.
Qed.

(** [d.setDate(d.getDate() + k)] moves [d] by [k] local days and keeps its
    local time of day, in any zone. *)
Lemma setDate_getDate (z : TimeZone) (t k : Z) :
  setDate z t (getDate z t + k)
  = UTC z (MakeDate (Spec.localDay z t + k) (TimeWithinDay (LocalTime z t))).
Proof.
  unfold setDate, getDate, Spec.localDay; cbv zeta.
  now rewrite MakeDay_DateFromTime.
Qed.

(** *** Local time in a zone with an ordinary transition *)

Section OrdinaryZone.

Variables off at_ delta : Z.
Hypothesis Hreg : regular off at_ delta.

Local Abbreviation z := (shifting off at_ delta).

Lemma Day_LocalTime_UTC (l : Z) : Day (LocalTime z (UTC z l)) = Day l.
Proof. zone_unfold. split_ltb; try reflexivity; zarith. Qed.

Lemma LocalTime_startOfLocalDay (k : Z) :
  LocalTime z (Spec.startOfLocalDay z k) = MakeDate k 0.
Proof. unfold Spec.startOfLocalDay. zone_arith. Qed.

Lemma LocalTime_endOfLocalDay (k : Z) :
  LocalTime z (Spec.endOfLocalDay z k) = MakeDate k 86399999.
Proof. unfold Spec.endOfLocalDay. zone_arith. Qed.

Lemma start_le_end (k : Z) : Spec.startOfLocalDay z k < Spec.endOfLocalDay z k.
Proof. unfold Spec.startOfLocalDay, Spec.endOfLocalDay. zone_arith. Qed.

Lemma end_lt_next_start (k : Z) :
  Spec.endOfLocalDay z k < Spec.startOfLocalDay z (k + 1).
Proof. unfold Spec.startOfLocalDay, Spec.endOfLocalDay. zone_arith. Qed.

Lemma startOfLocalDay_mono (j k : Z) :
  j <= k -> Spec.startOfLocalDay z j <= Spec.startOfLocalDay z k.
Proof. unfold Spec.startOfLocalDay. intros. zone_arith. Qed.

Lemma endOfLocalDay_mono (j k : Z) :
  j <= k -> Spec.endOfLocalDay z j <= Spec.endOfLocalDay z k.
Proof. unfold Spec.endOfLocalDay. intros. zone_arith. Qed.

Lemma end_lt_later_start (j k : Z) :
  j < k -> Spec.endOfLocalDay z j < Spec.startOfLocalDay z k.
Proof.
  intros Hjk. pose proof (end_lt_next_start j).
  pose proof (startOfLocalDay_mono (j + 1) k). lia.
Qed.


Lemma localDay_mono (t t' : Z) : t <= t' -> Spec.localDay z t <= Spec.localDay z t'.
Proof. unfold Spec.localDay. intros. zone_arith. Qed.

(** Seven times 24 hours later the local date is six to eight days on. *)
Lemma localDay_week_later (t : Z) :
  Spec.localDay z t + 6 <= Spec.localDay z (t + 7 * msPerDay) <= Spec.localDay z t + 8.
Proof. unfold Spec.localDay. zone_arith. Qed.

(** *** The [Date] calls of the classifier, by local day *)

Lemma getStartOfDay_local (t : Z) :
  getStartOfDay z t = Spec.startOfLocalDay z (Spec.localDay z t).
Proof. reflexivity. Qed.

Lemma getEndOfDay_local (t : Z) :
  getEndOfDay z t = Spec.endOfLocalDay z (Spec.localDay z t).
Proof. reflexivity. Qed.

Lemma localDay_setDate (t k : Z) :
  Spec.localDay z (setDate z t (getDate z t + k)) = Spec.localDay z t + k.
Proof.
  rewrite setDate_getDate. unfold Spec.localDay.
  rewrite Day_LocalTime_UTC.
  unfold MakeDate, Day, TimeWithinDay, msPerDay. zarith.
Qed.

Lemma localDay_startOfLocalDay (k : Z) :
  Spec.localDay z (Spec.startOfLocalDay z k) = k.
Proof.
  unfold Spec.localDay. rewrite LocalTime_startOfLocalDay.
  unfold MakeDate, Day, msPerDay. zarith.
Qed.

Lemma localDay_endOfLocalDay (k : Z) :
  Spec.localDay z (Spec.endOfLocalDay z k) = k.
Proof.
  unfold Spec.localDay. rewrite LocalTime_endOfLocalDay.
  unfold MakeDate, Day, msPerDay. zarith.
Qed.

(** [tomorrow.setDate(today.getDate() + 1)] is the next local midnight. *)
Lemma tomorrow_local (now : Z) :
  setDate z (getStartOfDay z now) (getDate z (getStartOfDay z now) + 1)
  = Spec.startOfLocalDay z (Spec.localDay z now + 1).
Proof.
  rewrite setDate_getDate, getStartOfDay_local.
  rewrite localDay_startOfLocalDay, LocalTime_startOfLocalDay.
  unfold Spec.startOfLocalDay. f_equal.
  unfold MakeDate, TimeWithinDay, msPerDay. zarith.
Qed.

Lemma getWeekBoundaries_local (t : Z) :
  getWeekBoundaries z t = Spec.weekOf z t.
Proof.
  unfold getWeekBoundaries, Spec.weekOf; cbv zeta.
  rewrite getStartOfDay_local, getEndOfDay_local.
  rewrite !localDay_setDate.
  replace (getDate z t - getDay z t + (if getDay z t =? 0 then -6 else 1))
    with (getDate z t + (- getDay z t + (if getDay z t =? 0 then -6 else 1)))
    by lia.
  rewrite localDay_setDate.
  unfold getDay, WeekDay, Spec.mondayOf, Spec.localDay; cbv zeta.
  f_equal; f_equal; lia.
Qed.

(** In a zone with an ordinary transition the program's classifier is the
    decision list of the specification. *)
Lemma determineTargetList_classify (now : Z) (due : option Z) :
  determineTargetList z now due = Spec.classify z due now.
Proof.
  destruct due as [due|]; [|reflexivity].
  unfold determineTargetList; cbv zeta.
  rewrite tomorrow_local, !getWeekBoundaries_local, !getEndOfDay_local.
  rewrite !getStartOfDay_local, !localDay_startOfLocalDay.
  reflexivity.
Qed.

(** *** The week of an instant *)

Lemma mondayOf_spec (d : Z) :
  Spec.mondayOf d <= d <= Spec.mondayOf d + 6 /\ (Spec.mondayOf d + 4) mod 7 = 1.
Proof. unfold Spec.mondayOf; cbv zeta. split_ltb; zarith. Qed.

End OrdinaryZone.

(** *** The classifier over the named boundaries *)

(** The boundaries of [determineTargetList] in a zone with an ordinary
    transition, by local day. *)
Lemma boundaries_local off at_ delta (Hreg : regular off at_ delta) now :
  let z := shifting off at_ delta in
  let d := Spec.localDay z now in
  today z now = Spec.startOfLocalDay z d /\
  getEndOfDay z (today z now) = Spec.endOfLocalDay z d /\
  getEndOfDay z now = Spec.endOfLocalDay z d /\
  tomorrow z now = Spec.startOfLocalDay z (d + 1) /\
  getEndOfDay z (tomorrow z now) = Spec.endOfLocalDay z (d + 1) /\
  currentWeek z now = Spec.weekOf z now /\
  nextWeek z now = Spec.weekOf z (now + 7 * msPerDay).
Proof.
  cbv zeta. unfold tomorrow, today, currentWeek, nextWeek.
  rewrite (tomorrow_local _ _ _ Hreg), !(getWeekBoundaries_local _ _ _ Hreg).
  rewrite !getEndOfDay_local, !getStartOfDay_local.
  rewrite !(localDay_startOfLocalDay _ _ _ Hreg).
  repeat split.
Qed.

(** The decision list of [determineTargetList] over the named boundaries. *)
Lemma determineTargetList_unfold z now due :
  determineTargetList z now (Some due) =
  if due <? today z now then Overdue
  else if (today z now <=? due) && (due <? getEndOfDay z (today z now)) then Today
  else if (tomorrow z now <=? due) && (due <? getEndOfDay z (tomorrow z now)) then Tomorrow
  else if (getEndOfDay z (tomorrow z now) <=? due) && (due <=? end_ (currentWeek z now)) then ThisWeek
  else if (start (nextWeek z now) <=? due) && (due <=? end_ (nextWeek z now)) then NextWeek
  else Later.
Proof. unfold tomorrow, today, currentWeek, nextWeek. reflexivity. Qed.

(** At a due date of 23:59:59.999 today the first four rules do not
    match: only the next-week rule is left to decide. *)
Lemma end_of_today_rules off at_ delta (Hreg : regular off at_ delta) now :
  let z := shifting off at_ delta in
  let due := getEndOfDay z now in
  determineTargetList z now (Some due) =
  if (start (nextWeek z now) <=? due) && (due <=? end_ (nextWeek z now))
  then NextWeek else Later.
Proof.
  cbv zeta. set (z := shifting off at_ delta).
  rewrite determineTargetList_unfold.
  destruct (boundaries_local _ _ _ Hreg now) as (Ht & Het & He & Htm & Hetm & Hcw & Hnw).
  fold z in Ht, Het, He, Htm, Hetm, Hcw, Hnw.
  pose proof (start_le_end _ _ _ Hreg (Spec.localDay z now)) as Hday.
  pose proof (end_lt_next_start _ _ _ Hreg (Spec.localDay z now)) as Hnext.
  pose proof (start_le_end _ _ _ Hreg (Spec.localDay z now + 1)) as Hday'.
  fold z in Hday, Hnext, Hday'.
  rewrite Het, Hetm, Ht, Htm, He.
  split_ltb; simpl; try reflexivity; lia.
Qed.

Lemma regular_fixed off : regular off 0 0.
Proof. now left. Qed.

(** X10.  Without clock changes, at every instant, a card due at exactly
    23:59:59.999 of the current day is put in Later, not in Today. *)
Lemma fixed_end_of_today_is_Later off now :
  determineTargetList (fixed off) now (Some (getEndOfDay (fixed off) now)) = Later.
Proof.
  pose proof (end_of_today_rules _ _ _ (regular_fixed off) now) as H. cbv zeta in H.
  unfold fixed. rewrite H.
  destruct (boundaries_local _ _ _ (regular_fixed off) now) as (_ & _ & He & _ & _ & _ & Hnw).
  rewrite Hnw, He. unfold Spec.weekOf; simpl.
  pose proof (mondayOf_spec (Spec.localDay (shifting off 0 0) (now + 7 * msPerDay))) as [Hm _].
  assert (Hd : Spec.localDay (shifting off 0 0) (now + 7 * msPerDay)
               = Spec.localDay (shifting off 0 0) now + 7).
  { unfold Spec.localDay. zone_arith. }
  pose proof (end_lt_later_start _ _ _ (regular_fixed off) (Spec.localDay (shifting off 0 0) now)
     (Spec.mondayOf (Spec.localDay (shifting off 0 0) (now + 7 * msPerDay)))) as Hlt.
  destruct (Z.leb_spec (Spec.startOfLocalDay (shifting off 0 0)
     (Spec.mondayOf (Spec.localDay (shifting off 0 0) (now + 7 * msPerDay))))
     (Spec.endOfLocalDay (shifting off 0 0) (Spec.localDay (shifting off 0 0) now))); [lia|].
  reflexivity.
Qed.

Lemma regular_easternSpring2024 : regular (-18000000) 1710054000000 3600000.
Proof. right. split; reflexivity. Qed.

Lemma regular_easternAutumn2024 : regular (-14400000) 1730613600000 (-3600000).
Proof. right. split; reflexivity. Qed.

(** The decision list over local days, with the order of the day
    boundaries at hand. *)
Ltac by_days Hreg now :=
  rewrite determineTargetList_unfold;
  let Ht := fresh "Ht" in
  let Het := fresh "Het" in
  let Htm := fresh "Htm" in
  let Hetm := fresh "Hetm" in
  let Hcw := fresh "Hcw" in
  let Hnw := fresh "Hnw" in
  destruct (boundaries_local _ _ _ Hreg now) as (Ht & Het & _ & Htm & Hetm & Hcw & Hnw);
  rewrite ?Het, ?Hetm, ?Ht, ?Htm, ?Hcw, ?Hnw in *;
  unfold Spec.weekOf in *; cbn [start end_] in *;
  clear Ht Het Htm Hetm Hcw Hnw;
  lazymatch type of Hreg with
  | regular ?o ?a ?d =>
    pose proof (start_le_end o a d Hreg (Spec.localDay (shifting o a d) now));
    pose proof (end_lt_next_start o a d Hreg (Spec.localDay (shifting o a d) now));
    pose proof (start_le_end o a d Hreg (Spec.localDay (shifting o a d) now + 1));
    pose proof (mondayOf_spec (Spec.localDay (shifting o a d) now))
  end.


(** ** The organise pass *)

Lemma count_app (p : Event -> bool) (l1 l2 : list Event) :
  count p (l1 ++ l2) = (count p l1 + count p l2)%nat.
Proof. unfold count. now rewrite filter_app, length_app. Qed.

Lemma count_cons (p : Event -> bool) (ev : Event) (l : list Event) :
  count p (ev :: l) = ((if p ev then 1 else 0) + count p l)%nat.
Proof.
  unfold count. rewrite filter_cons.
  destruct (p ev); case_decide; simpl; congruence.
Qed.

Lemma count_nil (p : Event -> bool) : count p [] = 0%nat.
Proof. reflexivity. Qed.

Lemma since_app (w w' : World) (evs : list Event) :
  trace w' = trace w ++ evs -> since w w' = evs.
Proof. unfold since. intros ->. apply drop_app_length. Qed.

Lemma moveCard_spec (cardId listId : string) (w : World) :
  exists (result : Json) (w' : World) (r : option Response) (errs : list Event),
    moveCard cardId listId w = (Normal result, w') /\
    trace w' = trace w ++ Fetch (PutCard cardId listId) r :: errs /\
    (errs = [] \/ exists e, errs = [Console (ErrMovingCard cardId e)]) /\
    truthy result = moveSucceeded (Fetch (PutCard cardId listId) r) /\
    clock w' = clock w + Z.of_N (took (nextExchange w)) /\
    wire w' = tl (wire w) /\ late w' = late w.
Proof.
  unfold moveCard, try_catch, bind, fetch.
  destruct (reply (nextExchange w)) as [|r|] eqn:Hreply.
  - destruct (serve (PutCard cardId listId) (board w)) as [r b] eqn:Hserve.
    simpl in Hserve.
    destruct (find _ (board w)) as [c|]; injection Hserve as <- <-; simpl.
    + eexists _, _, _, []. close_spec.
    + eexists _, _, _, [_]. close_spec.
  - destruct (ok r) eqn:Hok; simpl.
    + unfold json. destruct (body r) as [j|] eqn:Hbody; simpl.
      * eexists _, _, _, []. close_spec. now rewrite Hok, Hbody.
      * eexists _, _, _, [_]. close_spec. now rewrite Hok, Hbody.
    + eexists _, _, _, [_]. close_spec. now rewrite Hok.
  - eexists _, _, _, [_]. close_spec.
Qed.

(** [getAllCards] never throws either: a listing that fails is logged and
    stands for an empty board. *)
Lemma getAllCards_spec (w : World) :
  exists (cards : Json) (w' : World) (r : option Response) (errs : list Event),
    getAllCards w = (Normal cards, w') /\
    trace w' = trace w ++ Fetch GetCards r :: errs /\
    (errs = [] \/ exists e, errs = [Console (ErrFetchingCards e)]) /\
    clock w' = clock w + Z.of_N (took (nextExchange w)) /\
    board w' = board w /\ wire w' = tl (wire w) /\ late w' = late w /\
    (listingFails w = true ->
     cards = JCards [] /\ exists e, errs = [Console (ErrFetchingCards e)]) /\
    (reply (nextExchange w) = Served -> cards = JCards (board w) /\ errs = []).
Proof.
  unfold getAllCards, try_catch, bind, fetch, listingFails.
  destruct (reply (nextExchange w)) as [|r|] eqn:Hreply.
  - simpl. eexists _, _, _, []. close_spec; try discriminate.
  - destruct (ok r) eqn:Hok; simpl.
    + unfold json. destruct (body r) as [j|] eqn:Hbody; simpl.
      * eexists _, _, _, []. close_spec; try discriminate.
      * eexists _, _, _, [_]. close_spec; try discriminate.
    + eexists _, _, _, [_]. close_spec; try discriminate.
  - eexists _, _, _, [_]. close_spec; try discriminate.
Qed.

Section OrganizerFacts.

Variable z : TimeZone.
Variable LIST_MAPPING : gmap string string.

Local Abbreviation organizeCard := (organizeCard z LIST_MAPPING).
Local Abbreviation organizeLoop := (organizeLoop z LIST_MAPPING).
Local Abbreviation organizeCards := (organizeCards z LIST_MAPPING).
Local Abbreviation organizeRoute := (organizeRoute z LIST_MAPPING).
Local Abbreviation verdict := (verdict z LIST_MAPPING).

Lemma organizeCard_unmapped (card : Card) (counts : nat * nat) (w : World) :
  verdict (clock w) card = Unmapped ->
  organizeCard card counts w =
  (Normal counts,
   emit (Console (WarnNoListId
     (listName (determineTargetList z (clock w) (Card.due card))))) w).
Proof.
  unfold verdict, organizeCard, bind, newDate.
  destruct counts as [m e].
  destruct (LIST_MAPPING !! _) as [targetListId|]; [|reflexivity].
  destruct (String.eqb targetListId ""); [reflexivity|].
  destruct (String.eqb (Card.idList card) targetListId); discriminate.
Qed.

Lemma organizeCard_inplace (card : Card) (counts : nat * nat) (w : World) :
  verdict (clock w) card = InPlace ->
  organizeCard card counts w = (Normal counts, w).
Proof.
  unfold verdict, organizeCard, bind, newDate.
  destruct counts as [m e].
  destruct (LIST_MAPPING !! _) as [targetListId|]; [|discriminate].
  destruct (String.eqb targetListId ""); [discriminate|].
  destruct (String.eqb (Card.idList card) targetListId); [reflexivity|discriminate].
Qed.

Lemma organizeCard_move (card : Card) (m e : nat) (w : World) (listId : string) :
  verdict (clock w) card = MoveTo listId ->
  organizeCard card (m, e) w =
  match moveCard (Card.id card) listId
          (emit (Console (LogMoving (Card.name card)
             (listName (determineTargetList z (clock w) (Card.due card))))) w) with
  | (Normal result, w1) =>
    (Normal (if truthy result then (S m, e) else (m, S e)), slept w1)
  | (Throw x, w1) => (Throw x, w1)
  end.
Proof.
  unfold verdict, organizeCard, bind, newDate.
  destruct (LIST_MAPPING !! _) as [targetListId|]; [|discriminate].
  destruct (String.eqb targetListId ""); [discriminate|].
  destruct (String.eqb (Card.idList card) targetListId); [discriminate|].
  intros [= ->]. simpl.
  destruct (moveCard _ _ _) as [[result|x] w1]; reflexivity.
Qed.

Lemma slept_spec (w : World) :
  trace (slept w) = trace w ++ [Sleep 100] /\
  clock (slept w) = clock w + 100 + Z.of_N (hd 0%N (late w)) /\
  board (slept w) = board w /\ wire (slept w) = wire w.
Proof. unfold slept, setTimeout, emit; simpl. auto. Qed.

(** A turn of the loop never throws; it adds to the counters the move it
    made, sleeps once per request, and sends no request but a move. *)
Lemma organizeCard_total (card : Card) (counts : nat * nat) (w : World) :
  exists (counts' : nat * nat) (w' : World) (evs : list Event),
    organizeCard card counts w = (Normal counts', w') /\
    trace w' = trace w ++ evs /\
    tallies evs counts counts' /\
    count isSleep evs = count isPut evs /\
    clock w + 100 * Z.of_nat (count isPut evs) <= clock w'.
Proof.
  destruct (verdict (clock w) card) as [| |listId] eqn:Hv.
  - rewrite (organizeCard_unmapped _ _ _ Hv).
    eexists _, _, [_]. unfold emit, tallies; simpl.
    split; [reflexivity|]. split; [reflexivity|].
    rewrite !count_cons, !count_nil; simpl. repeat split; lia.
  - rewrite (organizeCard_inplace _ _ _ Hv).
    eexists _, _, []. unfold tallies; simpl.
    split; [reflexivity|]. split; [now rewrite app_nil_r|].
    rewrite !count_nil. repeat split; lia.
  - destruct counts as [m e]. rewrite (organizeCard_move _ _ _ _ _ Hv).
    destruct (moveCard_spec (Card.id card) listId
      (emit (Console (LogMoving (Card.name card)
        (listName (determineTargetList z (clock w) (Card.due card))))) w))
      as (result & w1 & r & errs & -> & Htr & Herrs & Hres & Hclk & _).
    destruct (slept_spec w1) as (Hstr & Hsclk & _).
    eexists _, _, (Console _ :: Fetch (PutCard _ _) r :: errs ++ [Sleep 100]).
    split; [reflexivity|].
    split.
    { rewrite Hstr, Htr. unfold emit; simpl.
      rewrite <- !app_assoc. reflexivity. }
    assert (Hce : forall p, (forall x y, p (Console (ErrMovingCard x y)) = false) ->
                       count p errs = 0%nat).
    { intros p Hp. destruct Herrs as [-> | [x ->]]; [reflexivity|].
      rewrite count_cons, Hp. reflexivity. }
    unfold tallies. rewrite !count_cons, !count_app, !count_cons, !Hce by reflexivity.
    rewrite !count_nil.
    unfold moveFailed. rewrite <- Hres. simpl isPut. simpl isSleep.
    simpl in Hclk.
    destruct (truthy result); simpl; repeat split; lia.
Qed.

Lemma tallies_trans (evs1 evs2 : list Event) (c0 c1 c2 : nat * nat) :
  tallies evs1 c0 c1 -> tallies evs2 c1 c2 -> tallies (evs1 ++ evs2) c0 c2.
Proof. unfold tallies. rewrite !count_app. lia. Qed.

(** The loop never throws, whatever the moves come to. *)
Lemma organizeLoop_total (cards : list Card) (counts : nat * nat) (w : World) :
  exists (counts' : nat * nat) (w' : World) (evs : list Event),
    organizeLoop cards counts w = (Normal counts', w') /\
    trace w' = trace w ++ evs /\
    tallies evs counts counts' /\
    count isSleep evs = count isPut evs /\
    clock w + 100 * Z.of_nat (count isPut evs) <= clock w'.
Proof.
  revert counts w. induction cards as [|card rest IH]; intros counts w.
  - exists counts, w, []. unfold tallies; simpl.
    split; [reflexivity|]. split; [now rewrite app_nil_r|].
    rewrite !count_nil. repeat split; lia.
  - destruct (organizeCard_total card counts w)
      as (c1 & w1 & evs1 & Hrun1 & Htr1 & Ht1 & Hs1 & Hc1).
    destruct (IH c1 w1) as (c2 & w2 & evs2 & Hrun2 & Htr2 & Ht2 & Hs2 & Hc2).
    exists c2, w2, (evs1 ++ evs2).
    split. { simpl. unfold bind. rewrite Hrun1. exact Hrun2. }
    split. { rewrite Htr2, Htr1. now rewrite app_assoc. }
    split. { eapply tallies_trans; eassumption. }
    rewrite !count_app. split; lia.
Qed.

(** What follows a stretch of cards runs from where that stretch ends. *)
Lemma organizeLoop_app (cards1 cards2 : list Card) (counts : nat * nat) (w : World) :
  organizeLoop (cards1 ++ cards2) counts w =
  bind (organizeLoop cards1 counts) (organizeLoop cards2) w.
Proof.
  revert counts w. induction cards1 as [|card rest IH]; intros counts w; simpl.
  - reflexivity.
  - unfold bind. destruct (organizeCard card counts w) as [[c1|x] w1]; [|reflexivity].
    apply IH.
Qed.

(** [organizeCards] by what [getAllCards] returns. *)
Lemma organizeCards_unfold (w : World) :
  organizeCards w =
  match getAllCards (emit (Console LogStarting) w) with
  | (Normal (JCards cs), w1) =>
    match organizeLoop cs (0, 0)%nat (emit (Console (LogFound (Some (length cs)))) w1) with
    | (Normal counts, w2) =>
      (Normal tt, emit (Console (LogComplete (fst counts) (snd counts))) w2)
    | (Throw e, w2) => (Throw e, w2)
    end
  | (Normal JNull, w1) => (Throw TypeError, w1)
  | (Normal (JCard _), w1) => (Throw TypeError, emit (Console (LogFound None)) w1)
  | (Throw e, w1) => (Throw e, w1)
  end.
Proof.
  unfold organizeCards, bind, console. 
  destruct (getAllCards _) as [[[|c|cs]|e] w1]; reflexivity.
Qed.

Lemma organizeRoute_unfold (w : World) :
  organizeRoute w =
  match organizeCards w with
  | (Normal _, w') => (Normal (200, true), w')
  | (Throw e, w') => (Normal (500, false), emit (Console (ErrOrganizing e)) w')
  end.
Proof.
  unfold organizeRoute, try_catch, bind.
  destruct (organizeCards w) as [[[]|e] w']; reflexivity.
Qed.

(** The loop goes on from where a turn ends. *)
Lemma organizeLoop_cons (card : Card) (rest : list Card) (counts counts' : nat * nat)
    (w w' : World) :
  organizeCard card counts w = (Normal counts', w') ->
  organizeLoop (card :: rest) counts w = organizeLoop rest counts' w'.
Proof. intros H. simpl. unfold bind. now rewrite H. Qed.

(** The loop is the card loop of the turn. *)
Lemma organizeLoop_isCardLoop : isCardLoop organizeCard organizeLoop.
Proof. split; reflexivity. Qed.

(** A turn that has to move the card: the request, then the timer. *)
Lemma organizeCard_move_step (card : Card) (m e : nat) (w : World) (listId : string) :
  verdict (clock w) card = MoveTo listId ->
  exists (result : Json) (w1 : World),
    moveCard (Card.id card) listId
      (emit (Console (LogMoving (Card.name card)
         (listName (determineTargetList z (clock w) (Card.due card))))) w)
    = (Normal result, w1) /\
    organizeCard card (m, e) w
    = (Normal (if truthy result then (S m, e) else (m, S e)), slept w1) /\
    since w1 (slept w1) = [Sleep 100] /\
    clock w1 + 100 <= clock (slept w1).
Proof.
  intros Hv. rewrite (organizeCard_move _ _ _ _ _ Hv).
  destruct (moveCard_spec (Card.id card) listId
    (emit (Console (LogMoving (Card.name card)
      (listName (determineTargetList z (clock w) (Card.due card))))) w))
    as (result & w1 & r & errs & Hmove & _).
  exists result, w1. rewrite Hmove.
  destruct (slept_spec w1) as (Htr & Hclk & _).
  repeat split.
  - now apply since_app.
  - lia.
Qed.

End OrganizerFacts.

(** ** Two runs in a row *)

Section SameDate.

Variables off at_ delta : Z.
Hypothesis Hreg : regular off at_ delta.

Local Abbreviation z := (shifting off at_ delta).

(** The classifier looks at the instant through its local date and the
    local date a week on only. *)
Lemma determineTargetList_sameDate (t t' : Z) (due : option Z) :
  sameDate z t t' -> determineTargetList z t due = determineTargetList z t' due.
Proof.
  intros [Hd Hw]. rewrite !(determineTargetList_classify _ _ _ Hreg).
  destruct due as [due|]; [|reflexivity].
  unfold Spec.classify, Spec.rules, Spec.weekOf. rewrite Hd, Hw. reflexivity.
Qed.

Lemma sameDate_between (t t' t'' : Z) :
  t <= t' <= t'' -> sameDate z t t'' -> sameDate z t t'.
Proof.
  intros [H1 H2] [Hd Hw].
  pose proof (localDay_mono _ _ _ Hreg t t' H1).
  pose proof (localDay_mono _ _ _ Hreg t' t'' H2).
  pose proof (localDay_mono _ _ _ Hreg (t + 7 * msPerDay) (t' + 7 * msPerDay)).
  pose proof (localDay_mono _ _ _ Hreg (t' + 7 * msPerDay) (t'' + 7 * msPerDay)).
  unfold sameDate. lia.
Qed.


(** While the local date, today's and the one a week on, stays the same,
    every due date keeps its list. *)
Lemma sameDate_steady (t T : Z) : sameDate z t T -> steady z t T.
Proof.
  intros Hsame t' due Ht. symmetry. apply determineTargetList_sameDate.
  now apply (sameDate_between t t' T).
Qed.

End SameDate.

Lemma relist_other (cardId listId : string) (c : Card) :
  Card.id c <> cardId -> relist cardId listId c = c.
Proof.
  intros Hne. unfold relist.
  destruct (String.eqb_spec (Card.id c) cardId); [contradiction|reflexivity].
Qed.

Lemma relist_id (cardId listId : string) (c : Card) :
  Card.id (relist cardId listId c) = Card.id c.
Proof. unfold relist. now destruct (String.eqb (Card.id c) cardId). Qed.

Lemma relist_due (cardId listId : string) (c : Card) :
  Card.due (relist cardId listId c) = Card.due c.
Proof. unfold relist. now destruct (String.eqb (Card.id c) cardId). Qed.

Lemma relist_self (listId : string) (c : Card) :
  Card.idList (relist (Card.id c) listId c) = listId.
Proof. unfold relist. now rewrite String.eqb_refl. Qed.

Lemma map_relist_absent (cardId listId : string) (l : list Card) :
  cardId ∉ map Card.id l -> map (relist cardId listId) l = l.
Proof.
  induction l as [|c l IH]; simpl; [reflexivity|].
  rewrite not_elem_of_cons. intros [Hne Hl].
  rewrite IH by assumption. rewrite relist_other by congruence. reflexivity.
Qed.

(** With distinct card ids, moving one card leaves the others alone. *)
Lemma map_relist_NoDup (listId : string) (done rest : list Card) (c : Card) :
  NoDup (map Card.id (done ++ c :: rest)) ->
  map (relist (Card.id c) listId) (done ++ c :: rest)
  = done ++ relist (Card.id c) listId c :: rest.
Proof.
  rewrite map_app. simpl. rewrite NoDup_app.
  intros (_ & Hdisj & Hrest). apply NoDup_cons in Hrest as [Hc _].
  rewrite map_app. simpl. rewrite !map_relist_absent; [reflexivity|assumption|].
  intros Hin. apply (Hdisj _ Hin). left.
Qed.

Lemma find_present (p : Card -> bool) (l : list Card) (c : Card) :
  c ∈ l -> p c = true -> exists c0, find p l = Some c0.
Proof.
  induction l as [|d l IH]; intros Hin Hp.
  - now apply elem_of_nil in Hin.
  - simpl. destruct (p d) eqn:Hd; [eauto|].
    apply elem_of_cons in Hin as [-> | Hin]; [congruence|]. now apply IH.
Qed.

(** A move the API performs on a card of the board. *)
Lemma moveCard_served (cardId listId : string) (w : World) (c : Card) :
  reply (nextExchange w) = Served ->
  c ∈ board w -> Card.id c = cardId ->
  exists (result : Json) (w' : World),
    moveCard cardId listId w = (Normal result, w') /\
    truthy result = true /\
    board w' = map (relist cardId listId) (board w) /\
    wire w' = tl (wire w) /\ late w' = late w /\
    clock w <= clock w'.
Proof.
  intros Hreply Hin Hid.
  destruct (find_present (fun c => String.eqb (Card.id c) cardId) (board w) c Hin)
    as [c0 Hfind]; [now apply String.eqb_eq|].
  unfold moveCard, try_catch, bind, fetch. rewrite Hreply.
  unfold serve. rewrite Hfind. simpl.
  eexists _, _. split; [reflexivity|]. simpl. repeat split. lia.
Qed.

Lemma allServed_next (w : World) : allServed w -> reply (nextExchange w) = Served.
Proof.
  unfold allServed, nextExchange. destruct (wire w) as [|x ws]; [reflexivity|].
  intros H. now apply Forall_cons in H as [H _].
Qed.

Lemma allServed_tl (w w' : World) :
  allServed w -> wire w' = tl (wire w) -> allServed w'.
Proof.
  unfold allServed. intros H ->. destruct (wire w) as [|x ws]; [exact H|].
  now apply Forall_cons in H as [_ H].
Qed.

Section Settling.

Variable z : TimeZone.
Variable LIST_MAPPING : gmap string string.

Local Abbreviation organizeCard := (organizeCard z LIST_MAPPING).
Local Abbreviation organizeLoop := (organizeLoop z LIST_MAPPING).
Local Abbreviation organizeCards := (organizeCards z LIST_MAPPING).
Local Abbreviation verdict := (verdict z LIST_MAPPING).
Local Abbreviation settle := (settle z LIST_MAPPING).

(** Over cards that are all in place or without list id the loop sends
    nothing, sets no timer, takes no time and leaves the counters. *)
Lemma organizeLoop_settled (cards : list Card) (counts : nat * nat) (w : World) :
  Forall (fun c => forall listId, verdict (clock w) c <> MoveTo listId) cards ->
  exists (w' : World) (evs : list Event),
    organizeLoop cards counts w = (Normal counts, w') /\
    trace w' = trace w ++ evs /\
    count isPut evs = 0%nat /\ count isSleep evs = 0%nat /\
    clock w' = clock w /\ board w' = board w /\
    wire w' = wire w /\ late w' = late w.
Proof.
  revert w. induction cards as [|c rest IH]; intros w Hall.
  - exists w, []. rewrite app_nil_r. repeat split.
  - apply Forall_cons in Hall as [Hc Hrest].
    destruct (verdict (clock w) c) as [| |listId] eqn:Hv.
    + destruct (IH (emit (Console (WarnNoListId
        (listName (determineTargetList z (clock w) (Card.due c))))) w) Hrest)
        as (w' & evs & Hloop & Htr & Hput & Hsleep & Hrest').
      exists w', (Console (WarnNoListId
        (listName (determineTargetList z (clock w) (Card.due c)))) :: evs).
      split. { rewrite <- Hloop. apply organizeLoop_cons, organizeCard_unmapped, Hv. }
      split. { rewrite Htr. simpl. now rewrite <- app_assoc. }
      rewrite !count_cons. simpl. repeat split; tauto.
    + destruct (IH w Hrest) as (w' & evs & Hloop & Hrest').
      exists w', evs.
      split. { rewrite <- Hloop. apply organizeLoop_cons, organizeCard_inplace, Hv. }
      exact Hrest'.
    + now destruct (Hc listId).
Qed.

Lemma settle_unfold (now : Z) (c : Card) :
  settle now c = match verdict now c with
                 | MoveTo listId => relist (Card.id c) listId c
                 | _ => c
                 end.
Proof. reflexivity. Qed.

(** A settled card needs no move. *)
Lemma verdict_settle (now : Z) (c : Card) (listId : string) :
  verdict now (settle now c) <> MoveTo listId.
Proof.
  unfold settle. destruct (verdict now c) as [| |target] eqn:Hv;
    try (rewrite Hv; discriminate).
  revert Hv. unfold verdict.
  rewrite relist_due, relist_self.
  destruct (LIST_MAPPING !! _) as [id|]; [|discriminate].
  destruct (String.eqb id ""); [discriminate|].
  destruct (String.eqb (Card.idList c) id); [discriminate|].
  intros [= ->]. now rewrite String.eqb_refl.
Qed.

Lemma verdict_due (now : Z) (c c' : Card) :
  Card.due c = Card.due c' -> Card.idList c = Card.idList c' ->
  verdict now c = verdict now c'.
Proof. unfold verdict. now intros -> ->. Qed.

(** When the API performs every move, the loop leaves each card it has
    taken up settled; the classification is taken not to change while
    the loop runs. *)
Lemma organizeLoop_settles (now : Z) (cards : list Card) :
  forall (done : list Card) (counts counts' : nat * nat) (w w' : World),
    allServed w ->
    board w = done ++ cards ->
    NoDup (map Card.id (done ++ cards)) ->
    organizeLoop cards counts w = (Normal counts', w') ->
    (forall t c, clock w <= t <= clock w' -> verdict t c = verdict now c) ->
    board w' = done ++ map (settle now) cards /\ allServed w' /\ clock w <= clock w'.
Proof.
  induction cards as [|c rest IH]; intros done counts counts' w w' Hserved Hboard Hnodup Hloop Hstable.
  - simpl in Hloop. injection Hloop as <- <-. simpl. repeat split; auto; lia.
  - destruct (organizeLoop_total z LIST_MAPPING (c :: rest) counts w)
      as (c2 & w2 & evs2 & Hrun2 & _ & _ & _ & Hclk2).
    rewrite Hloop in Hrun2. injection Hrun2 as <- <-.
    assert (Hle : clock w <= clock w') by lia.
    assert (Hvc : verdict (clock w) c = verdict now c) by (apply Hstable; lia).
    destruct (organizeCard_total z LIST_MAPPING c counts w)
      as (c1 & w1 & evs1 & Hturn & _ & _ & _ & Hclk1).
    rewrite (organizeLoop_cons _ _ _ _ _ _ _ _ Hturn) in Hloop.
    destruct (organizeLoop_total z LIST_MAPPING rest c1 w1)
      as (c3 & w3 & evs3 & Hrun3 & _ & _ & _ & Hclk3).
    rewrite Hloop in Hrun3. injection Hrun3 as <- <-.
    assert (Hle1 : clock w <= clock w1) by lia.
    assert (Hle3 : clock w1 <= clock w') by lia.
    assert (Hstable1 : forall t c0, clock w1 <= t <= clock w' -> verdict t c0 = verdict now c0)
      by (intros; apply Hstable; lia).
    assert (Hsplit : forall x, done ++ x :: rest = (done ++ [x]) ++ rest)
      by (intros; now rewrite <- app_assoc).
    simpl map. rewrite (settle_unfold now c), <- Hvc.
    destruct (verdict (clock w) c) as [| |listId] eqn:Hv.
    + rewrite (organizeCard_unmapped _ _ _ _ _ Hv) in Hturn.
      injection Hturn as <- <-.
      rewrite Hsplit in Hboard, Hnodup.
      destruct (IH (done ++ [c]) counts counts'
        (emit (Console (WarnNoListId
           (listName (determineTargetList z (clock w) (Card.due c))))) w) w'
        Hserved Hboard Hnodup Hloop Hstable1) as (Hb & Hs & _).
      rewrite Hb, <- app_assoc. auto.
    + rewrite (organizeCard_inplace _ _ _ _ _ Hv) in Hturn.
      injection Hturn as <- <-.
      rewrite Hsplit in Hboard, Hnodup.
      destruct (IH _ _ _ _ _ Hserved Hboard Hnodup Hloop Hstable1) as (Hb & Hs & _).
      rewrite Hb, <- app_assoc. auto.
    + destruct counts as [m e].
      rewrite (organizeCard_move _ _ _ _ _ _ _ Hv) in Hturn.
      set (w0 := emit (Console (LogMoving (Card.name c)
             (listName (determineTargetList z (clock w) (Card.due c))))) w) in *.
      destruct (moveCard_served (Card.id c) listId w0 c) as
        (result & wm & Hmove & _ & Hbm & Hwm & _ & _).
      { now apply allServed_next. }
      { simpl. rewrite Hboard. apply elem_of_app. right. left. }
      { reflexivity. }
      rewrite Hmove in Hturn. injection Hturn as <- <-.
      assert (Hb1 : board (slept wm) = (done ++ [relist (Card.id c) listId c]) ++ rest).
      { destruct (slept_spec wm) as (_ & _ & -> & _). rewrite Hbm. simpl.
        rewrite Hboard, map_relist_NoDup by assumption. now rewrite <- app_assoc. }
      assert (Hs1 : allServed (slept wm)).
      { apply (allServed_tl w); [assumption|].
        destruct (slept_spec wm) as (_ & _ & _ & ->). exact Hwm. }
      assert (Hn1 : NoDup (map Card.id ((done ++ [relist (Card.id c) listId c]) ++ rest))).
      { rewrite <- app_assoc. simpl. rewrite map_app in Hnodup |- *. simpl in Hnodup |- *.
        now rewrite relist_id. }
      destruct (IH _ _ _ _ _ Hs1 Hb1 Hn1 Hloop Hstable1) as (Hb & Hs & _).
      rewrite Hb. rewrite <- app_assoc. auto.
Qed.

End Settling.

(** ** The claims *)

(** *** The classifier *)




(** C7.  Whatever the zone and the instant, a card without due date
    belongs to the list Later. *)
Theorem absent_due_is_Later (z : TimeZone) (now : Z) :
  determineTargetList z now None = Later.
Proof. intros. reflexivity. Qed.







(** *** The organise pass *)

(** C1, as stated, fails.  The API refuses the listing (status 401):
    [organizeCards] completes normally with its summary line, and the
    handler of [GET /organize] answers 200 with [success: true]. *)
Lemma refused_listing_reported_as_success :
  listingFails listingRefused = true /\
  fst (organizeCards (fixed 0) sampleMapping listingRefused) = Normal tt /\
  last (trace (snd (organizeCards (fixed 0) sampleMapping listingRefused)))
  = Some (Console (LogComplete 0 0)) /\
  fst (organizeRoute (fixed 0) sampleMapping listingRefused) = Normal (200, true).
Proof. repeat split. Qed.

(** C1, amended.  When the listing fails, [getAllCards] logs the error and
    stands in an empty list: the run completes normally, reports
    moved 0 and errors 0, sends no request but the listing, leaves the
    board alone, and the handler of [GET /organize] answers success. *)
Theorem listing_failure_is_swallowed (z : TimeZone) (LIST_MAPPING : gmap string string) (w : World) :
  listingFails w = true ->
  exists (w' : World) (r : option Response) (e : Exn),
    organizeCards z LIST_MAPPING w = (Normal tt, w') /\
    since w w' = [Console LogStarting; Fetch GetCards r;
                  Console (ErrFetchingCards e);
                  Console (LogFound (Some 0%nat)); Console (LogComplete 0 0)] /\
    board w' = board w /\
    organizeRoute z LIST_MAPPING w = (Normal (200, true), w').
Proof.
  intros Hfail.
  destruct (getAllCards_spec (emit (Console LogStarting) w))
    as (cards & w1 & r & errs & Hget & Htr & _ & _ & Hb & _ & _ & Hf & _).
  destruct (Hf Hfail) as [-> [e ->]].
  rewrite organizeRoute_unfold, organizeCards_unfold, Hget. simpl.
  eexists _, r, e. split; [reflexivity|]. split; [|split; [exact Hb|reflexivity]].
  apply since_app. simpl. rewrite Htr. simpl. rewrite <- !app_assoc. reflexivity.
Qed.

Lemma listing_failure_is_swallowed_witness :
  listingFails listingRefused = true /\
  exists (w' : World) (r : option Response) (e : Exn),
    organizeCards (fixed 0) sampleMapping listingRefused = (Normal tt, w') /\
    since listingRefused w'
    = [Console LogStarting; Fetch GetCards r; Console (ErrFetchingCards e);
       Console (LogFound (Some 0%nat)); Console (LogComplete 0 0)] /\
    board w' = board listingRefused /\
    organizeRoute (fixed 0) sampleMapping listingRefused = (Normal (200, true), w').
Proof.
  split; [reflexivity|].
  apply (listing_failure_is_swallowed (fixed 0) sampleMapping listingRefused).
  reflexivity.
Defined.

(** C2, as stated, fails.  A run over one card whose list name has no list
    id and a run over an empty board end in the same summary line, moved 0
    and errors 0, with one warning in the first and none in the second:
    the summary holds no count of the skipped cards. *)
Lemma summary_has_no_skipped_count :
  let skipping := snd (organizeCards (fixed 0) mappingWithoutLater (quiet [cardA] [])) in
  let empty := snd (organizeCards (fixed 0) mappingWithoutLater (quiet [] [])) in
  last (trace skipping) = Some (Console (LogComplete 0 0)) /\
  last (trace empty) = Some (Console (LogComplete 0 0)) /\
  count isWarning (trace skipping) = 1%nat /\
  count isWarning (trace empty) = 0%nat.
Proof. repeat split. Qed.

(** C2, amended.  Every run that completes ends with a summary line of two
    tallies, the moves done and the moves failed during the run, also when
    some moves failed; a card skipped for want of a list id is reported by
    its warning and is in neither tally. *)
Theorem summary_reports_moved_and_errors (z : TimeZone) (LIST_MAPPING : gmap string string) (w w' : World) :
  organizeCards z LIST_MAPPING w = (Normal tt, w') ->
  exists m e : nat,
    last (trace w') = Some (Console (LogComplete m e)) /\
    m = count moveSucceeded (since w w') /\
    e = count moveFailed (since w w').
Proof.
  rewrite organizeCards_unfold.
  destruct (getAllCards_spec (emit (Console LogStarting) w))
    as (cards & w1 & r & errs & Hget & Htr & Herrs & _).
  rewrite Hget. destruct cards as [|c|cs]; try discriminate.
  destruct (organizeLoop_total z LIST_MAPPING cs (0, 0)%nat
              (emit (Console (LogFound (Some (length cs)))) w1))
    as (counts & w2 & evs & Hloop & Htr2 & [Hm He] & _).
  rewrite Hloop. intros [= <-].
  exists (fst counts), (snd counts).
  split. { simpl. apply last_snoc. }
  assert (Hsince : since w (emit (Console (LogComplete (fst counts) (snd counts))) w2)
            = Console LogStarting :: Fetch GetCards r :: errs
              ++ Console (LogFound (Some (length cs))) :: evs
              ++ [Console (LogComplete (fst counts) (snd counts))]).
  { apply since_app. simpl. rewrite Htr2. simpl. rewrite Htr. simpl.
    rewrite <- !app_assoc. reflexivity. }
  assert (Hce : forall p, (forall x, p (Console (ErrFetchingCards x)) = false) ->
                     count p errs = 0%nat).
  { intros p Hp. destruct Herrs as [-> | [x ->]]; [reflexivity|].
    rewrite count_cons, Hp. reflexivity. }
  rewrite Hsince, !count_cons, !count_app, !count_cons, !count_app, !count_cons,
    !count_nil, !Hce by reflexivity.
  simpl in Hm, He. simpl. lia.
Qed.

Lemma summary_reports_moved_and_errors_witness :
  let w' := snd (organizeCards (fixed 0) sampleMapping fourCards) in
  organizeCards (fixed 0) sampleMapping fourCards = (Normal tt, w') /\
  exists m e : nat,
    last (trace w') = Some (Console (LogComplete m e)) /\
    m = count moveSucceeded (since fourCards w') /\
    e = count moveFailed (since fourCards w').
Proof.
  split; [vm_compute; reflexivity|].
  apply (summary_reports_moved_and_errors (fixed 0) sampleMapping fourCards).
  vm_compute; reflexivity.
Defined.

(** C5.  A move that fails never aborts the run.  Whatever the moves of a
    stretch of cards come to, the loop completes it normally, with the
    moves done added to moved and the moves failed added to failed, and
    goes on with the cards after it.  A turn that has to move its card
    adds one to moved when the move is done and one to failed when it is
    not, and the loop goes on with the rest either way.  With the four
    sample cards, the moves of B and D failing, all four moves are
    requested and the summary is moved 2, errors 2. *)
Theorem move_failure_never_aborts :
  (forall (z : TimeZone) (LIST_MAPPING : gmap string string)
          (cards1 cards2 : list Card) (counts : nat * nat) (w : World),
   exists (counts1 : nat * nat) (w1 : World),
     organizeLoop z LIST_MAPPING cards1 counts w = (Normal counts1, w1) /\
     tallies (since w w1) counts counts1 /\
     organizeLoop z LIST_MAPPING (cards1 ++ cards2) counts w
     = organizeLoop z LIST_MAPPING cards2 counts1 w1) /\
  (forall (z : TimeZone) (LIST_MAPPING : gmap string string)
          (card : Card) (rest : list Card) (m e : nat) (w : World),
   match verdict z LIST_MAPPING (clock w) card with
   | MoveTo listId =>
     exists (result : Json) (w1 : World),
       moveCard (Card.id card) listId
         (emit (Console (LogMoving (Card.name card)
            (listName (determineTargetList z (clock w) (Card.due card))))) w)
       = (Normal result, w1) /\
       organizeLoop z LIST_MAPPING (card :: rest) (m, e) w
       = organizeLoop z LIST_MAPPING rest
           (if truthy result then (S m, e) else (m, S e)) (slept w1)
   | _ => True
   end) /\
  (let w' := snd (organizeCards (fixed 0) sampleMapping fourCards) in
   fst (organizeCards (fixed 0) sampleMapping fourCards) = Normal tt /\
   omap (fun ev => match ev with
                   | Fetch (PutCard cardId _) _ => Some cardId
                   | _ => None
                   end) (trace w') = ["A"; "B"; "C"; "D"] /\
   omap (fun ev => if moveFailed ev
                   then match ev with
                        | Fetch (PutCard cardId _) _ => Some cardId
                        | _ => None
                        end
                   else None) (trace w') = ["B"; "D"] /\
   last (trace w') = Some (Console (LogComplete 2 2))).
Proof.
  split; [|split].
  - intros z LIST_MAPPING cards1 cards2 counts w.
    destruct (organizeLoop_total z LIST_MAPPING cards1 counts w)
      as (counts1 & w1 & evs & Hloop & Htrace & Htally & _).
    exists counts1, w1. split; [exact Hloop|]. split.
    + now rewrite (since_app _ _ _ Htrace).
    + rewrite organizeLoop_app. unfold bind. now rewrite Hloop.
  - intros z LIST_MAPPING card rest m e w.
    destruct (verdict z LIST_MAPPING (clock w) card) as [| |listId] eqn:Hv; trivial.
    destruct (organizeCard_move_step z LIST_MAPPING card m e w listId Hv)
      as (result & w1 & Hmove & Hturn & _).
    exists result, w1. split; [exact Hmove|].
    now apply organizeLoop_cons.
  - repeat split.
Qed.

(** C6.  A card whose list name has no entry in the list mapping is
    reported by a warning, changes neither counter and causes no request:
    its turn ends with the counters it started with, in the world it
    started in plus the warning line.  The loop, which takes the cards up
    one after another, goes on with the cards after it: the run over the
    card and the cards after it completes, its trace is the warning
    followed by the events of the cards after it, and its counters are
    the counters before plus the moves done and failed among those
    events. *)
Theorem unmapped_card_is_skipped (z : TimeZone) (LIST_MAPPING : gmap string string)
    (card : Card) (rest : list Card) (counts : nat * nat) (w : World) :
  LIST_MAPPING !! listName (determineTargetList z (clock w) (Card.due card)) = None ->
  let warned :=
    emit (Console (WarnNoListId
      (listName (determineTargetList z (clock w) (Card.due card))))) w in
  organizeCard z LIST_MAPPING card counts w = (Normal counts, warned) /\
  organizeLoop z LIST_MAPPING (card :: rest) counts w
  = organizeLoop z LIST_MAPPING rest counts warned /\
  isCardLoop (organizeCard z LIST_MAPPING) (organizeLoop z LIST_MAPPING) /\
  organizeLoop z LIST_MAPPING [card] counts w = (Normal counts, warned) /\
  exists (counts' : nat * nat) (w' : World) (evs : list Event),
    organizeLoop z LIST_MAPPING (card :: rest) counts w = (Normal counts', w') /\
    trace w' = trace w ++ Console (WarnNoListId
      (listName (determineTargetList z (clock w) (Card.due card)))) :: evs /\
    organizeLoop z LIST_MAPPING rest counts warned = (Normal counts', w') /\
    tallies evs counts counts'.
Proof.
  intros Hnone warned.
  assert (Hv : verdict z LIST_MAPPING (clock w) card = Unmapped)
    by (unfold verdict; now rewrite Hnone).
  pose proof (organizeCard_unmapped z LIST_MAPPING card counts w Hv) as Hturn.
  pose proof (organizeLoop_cons z LIST_MAPPING card rest _ _ _ _ Hturn) as Hstep.
  split; [exact Hturn|]. split; [exact Hstep|].
  split; [apply organizeLoop_isCardLoop|].
  split; [exact (organizeLoop_cons z LIST_MAPPING card [] _ _ _ _ Hturn)|].
  destruct (organizeLoop_total z LIST_MAPPING rest counts warned)
    as (counts' & w' & evs & Hrun & Htr & Htal & _).
  exists counts', w', evs.
  split; [now rewrite Hstep|].
  split; [rewrite Htr; unfold warned, emit; simpl; now rewrite <- app_assoc|].
  split; [exact Hrun|exact Htal].
Qed.

Lemma unmapped_card_is_skipped_witness :
  mappingWithoutLater !! listName (determineTargetList (fixed 0)
     (clock (quiet [cardA; cardB] [])) (Card.due cardA)) = None /\
  organizeCard (fixed 0) mappingWithoutLater cardA (0, 0)%nat (quiet [cardA; cardB] [])
  = (Normal (0, 0)%nat, emit (Console (WarnNoListId "Later")) (quiet [cardA; cardB] [])) /\
  organizeLoop (fixed 0) mappingWithoutLater [cardA; cardB] (0, 0)%nat (quiet [cardA; cardB] [])
  = organizeLoop (fixed 0) mappingWithoutLater [cardB] (0, 0)%nat
      (emit (Console (WarnNoListId "Later")) (quiet [cardA; cardB] [])).
Proof.
  split; [reflexivity|].
  destruct (unmapped_card_is_skipped (fixed 0) mappingWithoutLater cardA [cardB]
              (0, 0)%nat (quiet [cardA; cardB] []) eq_refl) as (Hturn & Hstep & _).
  split; [exact Hturn|exact Hstep].
Defined.

(** C9.  The loop takes the cards up one after another.  A turn that has
    to move its card sleeps once the move attempt has returned, whatever
    it returned: the turn ends in the world the attempt left plus the
    100 ms timer, at least 100 ms later on the clock, and the next card
    is taken up there.  A turn that has not (the card is in place, or its
    list name has no list id) sets no timer and takes no time: it adds
    console lines at most. *)
Theorem delay_after_each_move_attempt (z : TimeZone) (LIST_MAPPING : gmap string string)
    (card : Card) (rest : list Card) (m e : nat) (w : World) :
  isCardLoop (organizeCard z LIST_MAPPING) (organizeLoop z LIST_MAPPING) /\
  match verdict z LIST_MAPPING (clock w) card with
  | MoveTo listId =>
    exists (result : Json) (w1 w2 : World),
      moveCard (Card.id card) listId
        (emit (Console (LogMoving (Card.name card)
           (listName (determineTargetList z (clock w) (Card.due card))))) w)
      = (Normal result, w1) /\
      organizeCard z LIST_MAPPING card (m, e) w
      = (Normal (if truthy result then (S m, e) else (m, S e)), w2) /\
      trace w2 = trace w1 ++ [Sleep 100] /\
      clock w1 + 100 <= clock w2 /\
      board w2 = board w1 /\ wire w2 = wire w1 /\
      organizeLoop z LIST_MAPPING (card :: rest) (m, e) w
      = organizeLoop z LIST_MAPPING rest
          (if truthy result then (S m, e) else (m, S e)) w2
  | _ =>
    exists (w' : World) (lines : list Line),
      organizeCard z LIST_MAPPING card (m, e) w = (Normal (m, e), w') /\
      organizeLoop z LIST_MAPPING (card :: rest) (m, e) w
      = organizeLoop z LIST_MAPPING rest (m, e) w' /\
      trace w' = trace w ++ map Console lines /\
      clock w' = clock w /\ late w' = late w /\
      count isSleep (since w w') = 0%nat
  end.
Proof.
  split; [apply organizeLoop_isCardLoop|].
  destruct (verdict z LIST_MAPPING (clock w) card) as [| |listId] eqn:Hv.
  - pose proof (organizeCard_unmapped z LIST_MAPPING card (m, e) w Hv) as Hturn.
    exists (emit (Console (WarnNoListId
      (listName (determineTargetList z (clock w) (Card.due card))))) w),
      [WarnNoListId (listName (determineTargetList z (clock w) (Card.due card)))].
    split; [exact Hturn|].
    split; [now apply organizeLoop_cons|].
    repeat split. unfold since, emit; simpl. now rewrite drop_app_length.
  - pose proof (organizeCard_inplace z LIST_MAPPING card (m, e) w Hv) as Hturn.
    exists w, []. split; [exact Hturn|].
    split; [now apply organizeLoop_cons|].
    split; [simpl; now rewrite app_nil_r|].
    repeat split. unfold since. now rewrite drop_all.
  - destruct (organizeCard_move_step z LIST_MAPPING card m e w listId Hv)
      as (result & w1 & Hmove & Hturn & _ & Hclock).
    destruct (slept_spec w1) as (Htr & _ & Hb & Hw).
    exists result, w1, (slept w1). repeat split; try assumption.
    now apply organizeLoop_cons.
Qed.

(** Every turn uses up one exchange at most: what is left of the wire
    after the loop is served as well. *)
Lemma organizeLoop_allServed (z : TimeZone) (LIST_MAPPING : gmap string string)
    (cards : list Card) :
  forall (counts : nat * nat) (w : World) (counts' : nat * nat) (w' : World),
    allServed w ->
    organizeLoop z LIST_MAPPING cards counts w = (Normal counts', w') ->
    allServed w'.
Proof.
  induction cards as [|c rest IH]; intros counts w counts' w' Hs Hl.
  - simpl in Hl. now injection Hl as <- <-.
  - destruct (organizeCard_total z LIST_MAPPING c counts w)
      as (c1 & wt & evs1 & Hturn & _).
    rewrite (organizeLoop_cons _ _ _ _ _ _ _ _ Hturn) in Hl.
    apply (IH c1 wt counts' w'); [|exact Hl].
    destruct (verdict z LIST_MAPPING (clock w) c) as [| |listId] eqn:Hv.
    + rewrite (organizeCard_unmapped _ _ _ _ _ Hv) in Hturn.
      injection Hturn as <- <-. exact Hs.
    + rewrite (organizeCard_inplace _ _ _ _ _ Hv) in Hturn.
      injection Hturn as <- <-. exact Hs.
    + destruct counts as [m e].
      rewrite (organizeCard_move _ _ _ _ _ _ _ Hv) in Hturn.
      destruct (moveCard_spec (Card.id c) listId
        (emit (Console (LogMoving (Card.name c)
          (listName (determineTargetList z (clock w) (Card.due c))))) w))
        as (result & wm & rr & errs & Hmove & _ & _ & _ & _ & Hwire & _).
      rewrite Hmove in Hturn. injection Hturn as <- <-.
      apply (allServed_tl w (slept wm)); [exact Hs|].
      destruct (slept_spec wm) as (_ & _ & _ & ->). exact Hwire.
Qed.

(** A run whose listing the API serves. *)
Lemma organizeCards_served (z : TimeZone) (LIST_MAPPING : gmap string string) (w : World) :
  allServed w ->
  exists (wl : World) (r : option Response) (counts : nat * nat) (w2 : World),
    getAllCards (emit (Console LogStarting) w) = (Normal (JCards (board w)), wl) /\
    trace wl = trace w ++ [Console LogStarting; Fetch GetCards r] /\
    board wl = board w /\ allServed wl /\ clock w <= clock wl /\
    organizeLoop z LIST_MAPPING (board w) (0, 0)%nat
      (emit (Console (LogFound (Some (length (board w))))) wl)
    = (Normal counts, w2) /\
    organizeCards z LIST_MAPPING w
    = (Normal tt, emit (Console (LogComplete (fst counts) (snd counts))) w2).
Proof.
  intros Hserved.
  destruct (getAllCards_spec (emit (Console LogStarting) w))
    as (cards & wl & r & errs & Hget & Htr & _ & Hclk & Hb & Hwire & _ & _ & Hs).
  destruct (Hs (allServed_next _ Hserved)) as [-> ->].
  destruct (organizeLoop_total z LIST_MAPPING (board w) (0, 0)%nat
              (emit (Console (LogFound (Some (length (board w))))) wl))
    as (counts & w2 & evs & Hloop & _).
  exists wl, r, counts, w2.
  split; [exact Hget|].
  split. { rewrite Htr. simpl. now rewrite <- app_assoc. }
  split; [exact Hb|].
  split. { apply (allServed_tl w); assumption. }
  split. { simpl in Hclk. lia. }
  split; [exact Hloop|].
  rewrite organizeCards_unfold, Hget. simpl in Hloop |- *. now rewrite Hloop.
Qed.

(** When the API performs every request, card ids are distinct and no due
    date changes its list from the start of the first run to the end of
    the second, the run after a run finds every card settled and moves
    nothing. *)
Lemma second_run_moves_nothing (z : TimeZone)
    (LIST_MAPPING : gmap string string) (w0 : World) (dt : N) :
  allServed w0 ->
  NoDup (map Card.id (board w0)) ->
  exists w1 w2 : World,
    organizeCards z LIST_MAPPING w0 = (Normal tt, w1) /\
    organizeCards z LIST_MAPPING (elapse dt w1) = (Normal tt, w2) /\
    (steady z (clock w0) (clock w2) ->
     board w1 = map (settle z LIST_MAPPING (clock w0)) (board w0) /\
     board w2 = board w1 /\
     count isPut (since (elapse dt w1) w2) = 0%nat /\
     last (trace w2) = Some (Console (LogComplete 0 0))).
Proof.
  intros Hserved Hnodup.
  destruct (organizeCards_served z LIST_MAPPING w0 Hserved)
    as (wl & r & counts & wb & _ & _ & Hbl & Hsl & Hcl & Hloop & Hrun).
  set (w1 := emit (Console (LogComplete (fst counts) (snd counts))) wb) in *.
  destruct (organizeLoop_total z LIST_MAPPING (board w0) (0, 0)%nat
              (emit (Console (LogFound (Some (length (board w0))))) wl))
    as (c' & wb' & evs & Hloop' & _ & _ & _ & Hclkb).
  rewrite Hloop in Hloop'. injection Hloop' as <- <-.
  assert (Hs1 : allServed wb -> allServed (elapse dt w1)) by (intros H; exact H).
  (* the second run, as it goes whatever the date *)
  assert (Hsecond : forall Hs : allServed (elapse dt w1),
            exists (wl2 : World) (r2 : option Response) (counts2 : nat * nat) (wb2 : World),
              trace wl2 = trace w1 ++ [Console LogStarting; Fetch GetCards r2] /\
              board wl2 = board wb /\ clock wb <= clock wl2 /\
              organizeLoop z LIST_MAPPING (board wb) (0, 0)%nat
                (emit (Console (LogFound (Some (length (board wb))))) wl2)
              = (Normal counts2, wb2) /\
              organizeCards z LIST_MAPPING (elapse dt w1)
              = (Normal tt, emit (Console (LogComplete (fst counts2) (snd counts2))) wb2)).
  { intros Hs.
    destruct (organizeCards_served z LIST_MAPPING (elapse dt w1) Hs)
      as (wl2 & r2 & counts2 & wb2 & _ & Htr2 & Hb2 & _ & Hc2 & Hloop2 & Hrun2).
    exists wl2, r2, counts2, wb2. simpl in Hc2. repeat split; try assumption. lia. }
  assert (Hservedb : allServed wb)
    by exact (organizeLoop_allServed z LIST_MAPPING (board w0) (0, 0)%nat
                (emit (Console (LogFound (Some (length (board w0))))) wl)
                counts wb Hsl Hloop).
  destruct (Hsecond (Hs1 Hservedb)) as (wl2 & r2 & counts2 & wb2 & Htr2 & Hb2 & Hc2 & Hloop2 & Hrun2).
  assert (Hbw1 : board w1 = board wb) by reflexivity.
  clear Hsecond Hs1. clearbody w1.
  exists w1, (emit (Console (LogComplete (fst counts2) (snd counts2))) wb2).
  split; [exact Hrun|]. split; [exact Hrun2|].
  intros Hsame. simpl in Hsame.
  destruct (organizeLoop_total z LIST_MAPPING (board wb) (0, 0)%nat
              (emit (Console (LogFound (Some (length (board wb))))) wl2))
    as (c' & wb' & evs2 & Hloop2' & _ & _ & _ & Hclk2).
  rewrite Hloop2 in Hloop2'. injection Hloop2' as <- <-. simpl in Hclk2, Hclkb.
  assert (Hstable : forall t c, clock w0 <= t <= clock wb2 ->
            verdict z LIST_MAPPING t c = verdict z LIST_MAPPING (clock w0) c).
  { intros t c Ht. unfold verdict. now rewrite (Hsame t (Card.due c)) by lia. }
  (* the first run settles the board *)
  destruct (organizeLoop_settles z LIST_MAPPING (clock w0) (board w0) []
              (0, 0)%nat counts
              (emit (Console (LogFound (Some (length (board w0))))) wl) wb)
    as (Hboard & _ & _); try assumption.
  { intros t c Ht. simpl in Ht. apply Hstable. lia. }
  simpl in Hboard.
  (* the second run finds it settled *)
  destruct (organizeLoop_settled z LIST_MAPPING (board wb) (0, 0)%nat
              (emit (Console (LogFound (Some (length (board wb))))) wl2))
    as (wb2' & evs3 & Hloop3 & Htr3 & Hput & _ & Hclk3 & Hb3 & _).
  { rewrite Hboard. apply Forall_forall. intros c' Hin listId.
    apply list_elem_of_fmap in Hin as (c & -> & _). simpl.
    rewrite (Hstable (clock wl2)) by lia.
    apply verdict_settle. }
  rewrite Hloop2 in Hloop3. injection Hloop3 as -> <-.
  split; [now rewrite Hbw1|].
  split; [simpl in Hb3 |- *; congruence|].
  split.
  - assert (Hsince : since (elapse dt w1)
        (emit (Console (LogComplete 0 0)) wb2)
        = Console LogStarting :: Fetch GetCards r2
          :: Console (LogFound (Some (length (board wb)))) :: evs3
          ++ [Console (LogComplete 0 0)]).
    { apply since_app. simpl. rewrite Htr3. simpl. rewrite Htr2.
      rewrite <- !app_assoc. reflexivity. }
    simpl fst. simpl snd. rewrite Hsince.
    rewrite !count_cons, count_app, count_cons, count_nil, Hput. reflexivity.
  - simpl. apply last_snoc.
Qed.

(** C4, as stated, fails.  One misplaced card; the API answers the move of
    the first run with a server error, so that run leaves the board as it
    found it (moved 0, errors 1); the second run, on the unchanged board,
    moves the card: moved 1. *)
Lemma second_run_moves_after_failed_move :
  let w1 := snd (organizeCards (fixed 0) sampleMapping firstMoveFails) in
  let w2 := snd (organizeCards (fixed 0) sampleMapping w1) in
  fst (organizeCards (fixed 0) sampleMapping firstMoveFails) = Normal tt /\
  last (trace w1) = Some (Console (LogComplete 0 1)) /\
  board w1 = board firstMoveFails /\
  fst (organizeCards (fixed 0) sampleMapping w1) = Normal tt /\
  last (trace w2) = Some (Console (LogComplete 1 0)).
Proof. cbv zeta. repeat split; vm_compute; reflexivity. Qed.

(** C4, amended.  A card that is in the list mapped to its list name causes
    no request, no log line and no change of the counters, and the loop,
    which takes the cards up one after another, goes on with the cards
    after it.  Consequently, whatever the zone of the host, when the API
    performs every request, card ids are distinct, and every due date is
    given the same list at every instant from the start of the first run
    to the end of the second, the first run leaves every card that has a
    list to go to in that list, and the run after it requests no move,
    leaves the board as it is and reports moved 0. *)
Theorem card_in_place_is_not_moved :
  (forall (z : TimeZone) (LIST_MAPPING : gmap string string)
          (card : Card) (rest : list Card) (counts : nat * nat) (w : World),
   verdict z LIST_MAPPING (clock w) card = InPlace ->
   organizeCard z LIST_MAPPING card counts w = (Normal counts, w) /\
   organizeLoop z LIST_MAPPING (card :: rest) counts w
   = organizeLoop z LIST_MAPPING rest counts w) /\
  (forall (z : TimeZone) (LIST_MAPPING : gmap string string),
   isCardLoop (organizeCard z LIST_MAPPING) (organizeLoop z LIST_MAPPING)) /\
  (forall (z : TimeZone) (LIST_MAPPING : gmap string string)
          (w0 : World) (dt : N),
   allServed w0 ->
   NoDup (map Card.id (board w0)) ->
   exists w1 w2 : World,
     organizeCards z LIST_MAPPING w0 = (Normal tt, w1) /\
     organizeCards z LIST_MAPPING (elapse dt w1) = (Normal tt, w2) /\
     (steady z (clock w0) (clock w2) ->
      board w1 = map (settle z LIST_MAPPING (clock w0)) (board w0) /\
      board w2 = board w1 /\
      count isPut (since (elapse dt w1) w2) = 0%nat /\
      last (trace w2) = Some (Console (LogComplete 0 0)))).
Proof.
  split.
  - intros z LIST_MAPPING card rest counts w Hv.
    pose proof (organizeCard_inplace z LIST_MAPPING card counts w Hv) as Hturn.
    split; [exact Hturn|]. now apply organizeLoop_cons.
  - split; [intros z LIST_MAPPING; apply organizeLoop_isCardLoop|].
    intros z LIST_MAPPING w0 dt Hserved Hnodup.
    exact (second_run_moves_nothing z LIST_MAPPING w0 dt Hserved Hnodup).
Qed.

Lemma card_in_place_is_not_moved_witness :
  let w0 := quiet [cardA; cardB; cardC; cardD; cardE] [] in
  verdict (fixed 0) sampleMapping (clock w0) cardE = InPlace /\
  organizeCard (fixed 0) sampleMapping cardE (0, 0)%nat w0 = (Normal (0, 0)%nat, w0) /\
  allServed w0 /\ NoDup (map Card.id (board w0)) /\
  exists w1 w2 : World,
    organizeCards (fixed 0) sampleMapping w0 = (Normal tt, w1) /\
    organizeCards (fixed 0) sampleMapping (elapse 3600000 w1) = (Normal tt, w2) /\
    steady (fixed 0) (clock w0) (clock w2) /\
    board w1 = map (settle (fixed 0) sampleMapping (clock w0)) (board w0) /\
    board w2 = board w1 /\
    count isPut (since (elapse 3600000 w1) w2) = 0%nat /\
    last (trace w2) = Some (Console (LogComplete 0 0)).
Proof.
  cbv zeta.
  assert (Hserved : allServed (quiet [cardA; cardB; cardC; cardD; cardE] []))
    by constructor.
  assert (Hnodup : NoDup (map Card.id (board (quiet [cardA; cardB; cardC; cardD; cardE] [])))).
  { apply (bool_decide_unpack _). vm_compute. exact I. }
  split; [vm_compute; reflexivity|].
  split.
  { apply (proj1 card_in_place_is_not_moved (fixed 0) sampleMapping cardE []).
    vm_compute; reflexivity. }
  split; [exact Hserved|]. split; [exact Hnodup|].
  destruct (proj2 (proj2 card_in_place_is_not_moved) (fixed 0) sampleMapping
              (quiet [cardA; cardB; cardC; cardD; cardE] []) 3600000%N
              Hserved Hnodup)
    as (w1 & w2 & Hrun1 & Hrun2 & Hsecond).
  exists w1, w2.
  assert (Hsteady : steady (fixed 0)
            (clock (quiet [cardA; cardB; cardC; cardD; cardE] [])) (clock w2)).
  { apply (sameDate_steady 0 0 0 (regular_fixed 0)).
    assert (H1 : w1 = snd (organizeCards (fixed 0) sampleMapping
                        (quiet [cardA; cardB; cardC; cardD; cardE] [])))
      by now rewrite Hrun1.
    assert (H2 : w2 = snd (organizeCards (fixed 0) sampleMapping (elapse 3600000 w1)))
      by now rewrite Hrun2.
    rewrite H2, H1. split; vm_compute; reflexivity. }
  split; [exact Hrun1|]. split; [exact Hrun2|]. split; [exact Hsteady|].
  exact (Hsecond Hsteady).
Defined.

(** ** Further properties of the classifier *)

Section DayAndWeek.

Variables off at_ delta : Z.
Hypothesis Hreg : regular off at_ delta.

Local Abbreviation z := (shifting off at_ delta).


Lemma mondayOf_within (d d' : Z) :
  Spec.mondayOf d <= d' <= Spec.mondayOf d + 6 -> Spec.mondayOf d' = Spec.mondayOf d.
Proof. unfold Spec.mondayOf; cbv zeta. split_ltb; zarith. Qed.

Lemma localDay_in_week (t t' : Z) :
  start (getWeekBoundaries z t) <= t' <= end_ (getWeekBoundaries z t) ->
  Spec.mondayOf (Spec.localDay z t) <= Spec.localDay z t'
  <= Spec.mondayOf (Spec.localDay z t) + 6.
Proof.
  rewrite (getWeekBoundaries_local _ _ _ Hreg). unfold Spec.weekOf. cbn [start end_].
  intros [Hlo Hhi].
  pose proof (localDay_mono _ _ _ Hreg _ _ Hlo) as H1.
  pose proof (localDay_mono _ _ _ Hreg _ _ Hhi) as H2.
  rewrite (localDay_startOfLocalDay _ _ _ Hreg) in H1.
  rewrite (localDay_endOfLocalDay _ _ _ Hreg) in H2. lia.
Qed.

End DayAndWeek.



(** X2.  In a zone whose clocks change in the ordinary way,
    [getWeekBoundaries] returns the same week for every instant of that
    week. *)
Theorem week_bounds_cover_the_week (off at_ delta t t' : Z) :
  regular off at_ delta ->
  let z := shifting off at_ delta in
  start (getWeekBoundaries z t) <= t' <= end_ (getWeekBoundaries z t) ->
  getWeekBoundaries z t' = getWeekBoundaries z t.
Proof.
  intros Hreg z Hin. subst z.
  pose proof (localDay_in_week _ _ _ Hreg t t' Hin) as Hday.
  rewrite !(getWeekBoundaries_local _ _ _ Hreg). unfold Spec.weekOf.
  now rewrite (mondayOf_within _ _ Hday).
Qed.

Lemma week_bounds_cover_the_week_witness :
  regular (-18000000) 1710054000000 3600000 /\
  start (getWeekBoundaries easternSpring2024 sampleNow) <= 1709000000000
    <= end_ (getWeekBoundaries easternSpring2024 sampleNow) /\
  getWeekBoundaries easternSpring2024 1709000000000
  = getWeekBoundaries easternSpring2024 sampleNow.
Proof.
  assert (Hin : start (getWeekBoundaries easternSpring2024 sampleNow) <= 1709000000000
                <= end_ (getWeekBoundaries easternSpring2024 sampleNow))
    by (vm_compute; split; discriminate).
  split; [exact regular_easternSpring2024|]. split; [exact Hin|].
  exact (week_bounds_cover_the_week (-18000000) 1710054000000 3600000 sampleNow
           1709000000000 regular_easternSpring2024 Hin).
Defined.

(** X3.  Without clock changes the next-week window starts the
    millisecond after the current week ends: no timestamp lies between
    the two windows. *)
Theorem fixed_weeks_are_adjacent (off now : Z) :
  start (nextWeek (fixed off) now) = end_ (currentWeek (fixed off) now) + 1.
Proof.
  destruct (boundaries_local _ _ _ (regular_fixed off) now) as (_ & _ & _ & _ & _ & Hcw & Hnw).
  unfold fixed. rewrite Hcw, Hnw. unfold Spec.weekOf. cbn [start end_].
  assert (Hd : Spec.localDay (shifting off 0 0) (now + 7 * msPerDay)
               = Spec.localDay (shifting off 0 0) now + 7)
    by (unfold Spec.localDay; zone_arith).
  rewrite Hd.
  assert (Hm : Spec.mondayOf (Spec.localDay (shifting off 0 0) now + 7)
               = Spec.mondayOf (Spec.localDay (shifting off 0 0) now) + 7)
    by (unfold Spec.mondayOf; cbv zeta; split_ltb; zarith).
  rewrite Hm. unfold Spec.startOfLocalDay, Spec.endOfLocalDay. zone_arith.
Qed.

(** X4.  Boundary exactness, in a zone whose clocks change in the ordinary
    way: a card due at the very start of today is in Today, one due a
    millisecond earlier is Overdue, and one due at the very start of
    tomorrow is in Tomorrow. *)
Theorem boundaries_are_exact (off at_ delta now : Z) :
  regular off at_ delta ->
  let z := shifting off at_ delta in
  determineTargetList z now (Some (today z now)) = Today /\
  determineTargetList z now (Some (today z now - 1)) = Overdue /\
  determineTargetList z now (Some (tomorrow z now)) = Tomorrow.
Proof.
  intros Hreg z. subst z.
  destruct (boundaries_local _ _ _ Hreg now) as (Ht & _ & _ & Htm & _).
  rewrite Ht, Htm. clear Ht Htm.
  repeat split; by_days Hreg now; split_ltb; simpl; try reflexivity; lia.
Qed.

Lemma boundaries_are_exact_witness :
  regular (-14400000) 1730613600000 (-3600000) /\
  determineTargetList easternAutumn2024 1730089800000
    (Some (today easternAutumn2024 1730089800000)) = Today /\
  determineTargetList easternAutumn2024 1730089800000
    (Some (today easternAutumn2024 1730089800000 - 1)) = Overdue /\
  determineTargetList easternAutumn2024 1730089800000
    (Some (tomorrow easternAutumn2024 1730089800000)) = Tomorrow.
Proof.
  split; [exact regular_easternAutumn2024|].
  exact (boundaries_are_exact (-14400000) 1730613600000 (-3600000) 1730089800000
           regular_easternAutumn2024).
Defined.

(** X5.  In a zone whose clocks change in the ordinary way, each of the
    first four windows gives its own list: no earlier rule shadows it. *)
Theorem windows_give_their_list (off at_ delta now due : Z) :
  regular off at_ delta ->
  let z := shifting off at_ delta in
  (due < today z now -> determineTargetList z now (Some due) = Overdue) /\
  (today z now <= due < getEndOfDay z (today z now) ->
   determineTargetList z now (Some due) = Today) /\
  (tomorrow z now <= due < getEndOfDay z (tomorrow z now) ->
   determineTargetList z now (Some due) = Tomorrow) /\
  (getEndOfDay z (tomorrow z now) <= due <= end_ (currentWeek z now) ->
   determineTargetList z now (Some due) = ThisWeek).
Proof.
  intros Hreg z. subst z.
  repeat split; intros Hin; by_days Hreg now;
    split_ltb; simpl; try reflexivity; lia.
Qed.

Lemma windows_give_their_list_witness :
  let z := easternSpring2024 in
  let now := 1709650800000 in
  regular (-18000000) 1710054000000 3600000 /\
  (1709600000000 < today z now /\
   determineTargetList z now (Some 1709600000000) = Overdue) /\
  (today z now <= 1709680000000 < getEndOfDay z (today z now) /\
   determineTargetList z now (Some 1709680000000) = Today) /\
  (tomorrow z now <= 1709750000000 < getEndOfDay z (tomorrow z now) /\
   determineTargetList z now (Some 1709750000000) = Tomorrow) /\
  (getEndOfDay z (tomorrow z now) <= 1709900000000 <= end_ (currentWeek z now) /\
   determineTargetList z now (Some 1709900000000) = ThisWeek).
Proof.
  cbv zeta.
  pose proof (fun due => windows_give_their_list (-18000000) 1710054000000 3600000
                1709650800000 due regular_easternSpring2024) as H.
  cbv zeta in H. fold easternSpring2024 in H.
  split; [exact regular_easternSpring2024|].
  split.
  { assert (Hin : 1709600000000 < today easternSpring2024 1709650800000)
      by (vm_compute; reflexivity).
    split; [exact Hin|]. exact (proj1 (H 1709600000000) Hin). }
  split.
  { assert (Hin : today easternSpring2024 1709650800000 <= 1709680000000
                  < getEndOfDay easternSpring2024 (today easternSpring2024 1709650800000))
      by (vm_compute; split; [discriminate|reflexivity]).
    split; [exact Hin|]. exact (proj1 (proj2 (H 1709680000000)) Hin). }
  split.
  { assert (Hin : tomorrow easternSpring2024 1709650800000 <= 1709750000000
                  < getEndOfDay easternSpring2024 (tomorrow easternSpring2024 1709650800000))
      by (vm_compute; split; [discriminate|reflexivity]).
    split; [exact Hin|]. exact (proj1 (proj2 (proj2 (H 1709750000000))) Hin). }
  assert (Hin : getEndOfDay easternSpring2024 (tomorrow easternSpring2024 1709650800000)
                <= 1709900000000 <= end_ (currentWeek easternSpring2024 1709650800000))
    by (vm_compute; split; discriminate).
  split; [exact Hin|]. exact (proj2 (proj2 (proj2 (H 1709900000000))) Hin).
Defined.

(** X6.  In a zone whose clocks change in the ordinary way, on a Sunday no
    card is put in This week: tomorrow already lies in the week after,
    so the window from the end of tomorrow to the end of the current week
    is empty. *)
Theorem no_this_week_on_sunday (off at_ delta now : Z) (due : option Z) :
  regular off at_ delta ->
  let z := shifting off at_ delta in
  getDay z now = 0 ->
  determineTargetList z now due <> ThisWeek.
Proof.
  intros Hreg z Hsun. subst z.
  destruct due as [due|]; [|discriminate].
  assert (Hm : Spec.mondayOf (Spec.localDay (shifting off at_ delta) now) + 6
               = Spec.localDay (shifting off at_ delta) now).
  { revert Hsun. unfold getDay, WeekDay, Spec.mondayOf, Spec.localDay; cbv zeta.
    intros ->. simpl. lia. }
  by_days Hreg now. rewrite Hm.
  split_ltb; simpl; try discriminate; lia.
Qed.

Lemma no_this_week_on_sunday_witness :
  regular (-18000000) 1710054000000 3600000 /\
  getDay easternSpring2024 sampleNow = 0 /\
  determineTargetList easternSpring2024 sampleNow (Some 1709900000000) <> ThisWeek.
Proof.
  split; [exact regular_easternSpring2024|]. split; [reflexivity|].
  exact (no_this_week_on_sunday (-18000000) 1710054000000 3600000 sampleNow
           (Some 1709900000000) regular_easternSpring2024 eq_refl).
Defined.

(** X7.  In a zone whose clocks change in the ordinary way, the list of a
    card depends on now only through the day now falls on and the day
    now + 7 days falls on: two instants with the same start of day, now
    and a week on, classify every due date alike. *)
Theorem same_day_same_list (off at_ delta t t' : Z) (due : option Z) :
  regular off at_ delta ->
  let z := shifting off at_ delta in
  getStartOfDay z t = getStartOfDay z t' ->
  getStartOfDay z (t + 7 * 24 * 60 * 60 * 1000)
  = getStartOfDay z (t' + 7 * 24 * 60 * 60 * 1000) ->
  determineTargetList z t due = determineTargetList z t' due.
Proof.
  intros Hreg z Hday Hweek. subst z.
  apply (determineTargetList_sameDate _ _ _ Hreg).
  rewrite !getStartOfDay_local in Hday, Hweek.
  apply (f_equal (Spec.localDay (shifting off at_ delta))) in Hday, Hweek.
  rewrite !(localDay_startOfLocalDay _ _ _ Hreg) in Hday, Hweek.
  split; assumption.
Qed.

Lemma same_day_same_list_witness :
  regular (-14400000) 1730613600000 (-3600000) /\
  getStartOfDay easternAutumn2024 1730100000000
  = getStartOfDay easternAutumn2024 1730150000000 /\
  getStartOfDay easternAutumn2024 (1730100000000 + 7 * 24 * 60 * 60 * 1000)
  = getStartOfDay easternAutumn2024 (1730150000000 + 7 * 24 * 60 * 60 * 1000) /\
  determineTargetList easternAutumn2024 1730100000000 (Some 1730400000000)
  = determineTargetList easternAutumn2024 1730150000000 (Some 1730400000000).
Proof.
  split; [exact regular_easternAutumn2024|].
  split; [reflexivity|]. split; [reflexivity|].
  exact (same_day_same_list (-14400000) 1730613600000 (-3600000)
           1730100000000 1730150000000 (Some 1730400000000)
           regular_easternAutumn2024 eq_refl eq_refl).
Defined.

Lemma fixed_week_later (off now : Z) :
  Spec.mondayOf (Spec.localDay (shifting off 0 0) (now + 7 * msPerDay))
  = Spec.mondayOf (Spec.localDay (shifting off 0 0) now) + 7.
Proof.
  assert (Hd : Spec.localDay (shifting off 0 0) (now + 7 * msPerDay)
               = Spec.localDay (shifting off 0 0) now + 7)
    by (unfold Spec.localDay; zone_arith).
  rewrite Hd. unfold Spec.mondayOf; cbv zeta. split_ltb; zarith.
Qed.

(** X9.  Without clock changes, a due date in the next-week window is put
    in Next week, unless it falls in tomorrow's window (now being a
    Sunday), which comes first. *)
Theorem fixed_next_week (off now due : Z) :
  let z := fixed off in
  start (nextWeek z now) <= due <= end_ (nextWeek z now) ->
  determineTargetList z now (Some due)
  = if (tomorrow z now <=? due) && (due <? getEndOfDay z (tomorrow z now))
    then Tomorrow else NextWeek.
Proof.
  intros z Hin. subst z. unfold fixed in *.
  pose proof (regular_fixed off) as Hreg.
  pose proof (fixed_week_later off now) as Hweek.
  pose proof (end_lt_next_start _ _ _ Hreg
    (Spec.mondayOf (Spec.localDay (shifting off 0 0) now) + 6)) as Hnext.
  pose proof (endOfLocalDay_mono _ _ _ Hreg (Spec.localDay (shifting off 0 0) now)
    (Spec.mondayOf (Spec.localDay (shifting off 0 0) now) + 6)) as Hmono.
  by_days Hreg now. rewrite Hweek in *.
  replace (Spec.mondayOf (Spec.localDay (shifting off 0 0) now) + 6 + 1)
    with (Spec.mondayOf (Spec.localDay (shifting off 0 0) now) + 7) in Hnext by lia.
  split_ltb; simpl; try reflexivity; lia.
Qed.

Lemma fixed_next_week_witness :
  start (nextWeek (fixed 0) sampleNow) <= 1710300000000
    <= end_ (nextWeek (fixed 0) sampleNow) /\
  determineTargetList (fixed 0) sampleNow (Some 1710300000000)
  = if (tomorrow (fixed 0) sampleNow <=? 1710300000000)
       && (1710300000000 <? getEndOfDay (fixed 0) (tomorrow (fixed 0) sampleNow))
    then Tomorrow else NextWeek.
Proof.
  assert (Hin : start (nextWeek (fixed 0) sampleNow) <= 1710300000000
                <= end_ (nextWeek (fixed 0) sampleNow))
    by (vm_compute; split; discriminate).
  split; [exact Hin|].
  exact (fixed_next_week 0 sampleNow 1710300000000 Hin).
Defined.

(** X8.  Without clock changes, every due date after the end of the next
    week is put in Later. *)
Theorem fixed_beyond_next_week (off now due : Z) :
  let z := fixed off in
  end_ (nextWeek z now) < due ->
  determineTargetList z now (Some due) = Later.
Proof.
  intros z Hin. subst z. unfold fixed in *.
  pose proof (regular_fixed off) as Hreg.
  pose proof (fixed_week_later off now) as Hweek.
  pose proof (endOfLocalDay_mono _ _ _ Hreg (Spec.localDay (shifting off 0 0) now + 1)
    (Spec.mondayOf (Spec.localDay (shifting off 0 0) now) + 7 + 6)) as Hmono.
  pose proof (endOfLocalDay_mono _ _ _ Hreg
    (Spec.mondayOf (Spec.localDay (shifting off 0 0) now) + 6)
    (Spec.mondayOf (Spec.localDay (shifting off 0 0) now) + 7 + 6)) as Hmono'.
  by_days Hreg now. rewrite Hweek in *.
  split_ltb; simpl; try reflexivity; lia.
Qed.

Lemma fixed_beyond_next_week_witness :
  end_ (nextWeek (fixed 0) sampleNow) < 1711300000000 /\
  determineTargetList (fixed 0) sampleNow (Some 1711300000000) = Later.
Proof.
  assert (Hin : end_ (nextWeek (fixed 0) sampleNow) < 1711300000000)
    by (vm_compute; reflexivity).
  split; [exact Hin|].
  exact (fixed_beyond_next_week 0 sampleNow 1711300000000 Hin).
Defined.

(** ** Further properties of the organise pass *)

Lemma putIds_app (l1 l2 : list Event) : putIds (l1 ++ l2) = putIds l1 ++ putIds l2.
Proof. apply omap_app. Qed.

Lemma pace_app (l1 l2 : list Event) : pace (l1 ++ l2) = pace l1 ++ pace l2.
Proof. apply omap_app. Qed.

(** X12.  [getAllCards] never throws.  It sends the one listing request
    and no other, sets no timer and leaves the board alone; it returns the
    empty array when the listing fails and the cards of the board when
    the API serves it. *)
Theorem getAllCards_never_throws (w : World) :
  exists (cards : Json) (w' : World),
    getAllCards w = (Normal cards, w') /\
    board w' = board w /\
    count isGet (since w w') = 1%nat /\
    count isPut (since w w') = 0%nat /\
    count isSleep (since w w') = 0%nat /\
    (listingFails w = true -> cards = JCards []) /\
    (reply (nextExchange w) = Served -> cards = JCards (board w)).
Proof.
  destruct (getAllCards_spec w)
    as (cards & w' & r & errs & Hget & Htr & Herrs & _ & Hb & _ & _ & Hfail & Hserved).
  exists cards, w'. rewrite (since_app _ _ _ Htr).
  assert (Hce : forall p, (forall x, p (Console (ErrFetchingCards x)) = false) ->
                     count p errs = 0%nat).
  { intros p Hp. destruct Herrs as [-> | [x ->]]; [reflexivity|].
    rewrite count_cons, Hp. reflexivity. }
  rewrite !count_cons, !Hce by reflexivity.
  repeat split; try assumption; try reflexivity.
  - intros H. apply Hfail, H.
  - intros H. apply Hserved, H.
Qed.

(** What [moveCard] returns: the body of a 2xx answer, [null] otherwise. *)
Lemma moveCard_value (cardId listId : string) (w : World) :
  exists (result : Json) (w' : World) (r : option Response) (errs : list Event),
    moveCard cardId listId w = (Normal result, w') /\
    trace w' = trace w ++ Fetch (PutCard cardId listId) r :: errs /\
    (errs = [] \/ exists e, errs = [Console (ErrMovingCard cardId e)]) /\
    result = match r with
             | Some response =>
               if ok response
               then match body response with Some parsed => parsed | None => JNull end
               else JNull
             | None => JNull
             end /\
    late w' = late w.
Proof.
  unfold moveCard, try_catch, bind, fetch.
  destruct (reply (nextExchange w)) as [|r|] eqn:Hreply.
  - destruct (serve (PutCard cardId listId) (board w)) as [r b] eqn:Hserve.
    simpl in Hserve.
    destruct (find _ (board w)) as [c|]; injection Hserve as <- <-; simpl.
    + eexists _, _, _, []. close_spec.
    + eexists _, _, _, [_]. close_spec.
  - destruct (ok r) eqn:Hok; simpl.
    + unfold json. destruct (body r) as [j|] eqn:Hbody; simpl.
      * eexists _, _, _, []. close_spec. now rewrite Hok, Hbody.
      * eexists _, _, _, [_]. close_spec. now rewrite Hok, Hbody.
    + eexists _, _, _, [_]. close_spec. now rewrite Hok.
  - eexists _, _, _, [_]. close_spec.
Qed.

(** X13.  [moveCard] never throws.  It sends the one move request, for the
    card and the list it is given, and sets no timer.  It returns the
    parsed body of the answer when an answer arrived with a 2xx status
    and a JSON body, and [null] in every other case: no answer, a status
    outside 2xx, a body that is not JSON. *)
Theorem moveCard_never_throws (cardId listId : string) (w : World) :
  exists (result : Json) (w' : World) (r : option Response) (rest : list Event),
    moveCard cardId listId w = (Normal result, w') /\
    since w w' = Fetch (PutCard cardId listId) r :: rest /\
    count isPut rest = 0%nat /\ count isGet rest = 0%nat /\
    count isSleep rest = 0%nat /\
    result = match r with
             | Some response =>
               if ok response
               then match body response with Some parsed => parsed | None => JNull end
               else JNull
             | None => JNull
             end /\
    late w' = late w.
Proof.
  destruct (moveCard_value cardId listId w)
    as (result & w' & r & errs & Hmove & Htr & Herrs & Hres & Hlate).
  exists result, w', r, errs. rewrite (since_app _ _ _ Htr).
  assert (Hce : forall p, (forall x y, p (Console (ErrMovingCard x y)) = false) ->
                     count p errs = 0%nat).
  { intros p Hp. destruct Herrs as [-> | [x ->]]; [reflexivity|].
    rewrite count_cons, Hp. reflexivity. }
  rewrite !Hce by reflexivity. repeat split; assumption.
Qed.

(** What a turn of the loop adds to the trace: nothing that counts, or one
    move request for its card followed by the 100 ms timer. *)
Lemma organizeCard_beat (z : TimeZone) (LIST_MAPPING : gmap string string)
    (card : Card) (counts : nat * nat) (w : World) :
  exists (counts' : nat * nat) (w' : World) (evs : list Event),
    organizeCard z LIST_MAPPING card counts w = (Normal counts', w') /\
    trace w' = trace w ++ evs /\
    count isGet evs = 0%nat /\
    ((pace evs = [] /\ putIds evs = []) \/
     (pace evs = [Move; Pause 100] /\ putIds evs = [Card.id card])).
Proof.
  destruct (verdict z LIST_MAPPING (clock w) card) as [| |listId] eqn:Hv.
  - rewrite (organizeCard_unmapped _ _ _ _ _ Hv).
    eexists _, _, [_]. split; [reflexivity|]. split; [reflexivity|].
    split; [reflexivity|]. now left.
  - rewrite (organizeCard_inplace _ _ _ _ _ Hv).
    eexists _, _, []. split; [reflexivity|]. split; [now rewrite app_nil_r|].
    split; [reflexivity|]. now left.
  - destruct counts as [m e].
    destruct (organizeCard_move_step z LIST_MAPPING card m e w listId Hv)
      as (result & w1 & Hmove & -> & _).
    destruct (moveCard_spec (Card.id card) listId
      (emit (Console (LogMoving (Card.name card)
        (listName (determineTargetList z (clock w) (Card.due card))))) w))
      as (result' & w1' & r & errs & Hmove' & Htr & Herrs & _).
    rewrite Hmove in Hmove'. injection Hmove' as <- <-.
    destruct (slept_spec w1) as (Hstr & _).
    eexists _, _, (Console _ :: Fetch (PutCard _ _) r :: errs ++ [Sleep 100]).
    split; [reflexivity|].
    split. { rewrite Hstr, Htr. unfold emit; simpl. now rewrite <- !app_assoc. }
    destruct Herrs as [-> | [x ->]]; (split; [reflexivity|]); now right.
Qed.

(** The loop, beat by beat. *)
Lemma organizeLoop_beat (z : TimeZone) (LIST_MAPPING : gmap string string)
    (cards : list Card) :
  forall (counts : nat * nat) (w : World),
  exists (counts' : nat * nat) (w' : World) (evs : list Event) (n : nat),
    organizeLoop z LIST_MAPPING cards counts w = (Normal counts', w') /\
    trace w' = trace w ++ evs /\
    count isGet evs = 0%nat /\
    pace evs = concat (replicate n [Move; Pause 100]) /\
    putIds evs `sublist_of` map Card.id cards.
Proof.
  induction cards as [|c rest IH]; intros counts w.
  - exists counts, w, [], 0%nat. rewrite app_nil_r. repeat split. constructor.
  - destruct (organizeCard_beat z LIST_MAPPING c counts w)
      as (c1 & w1 & evs1 & Hturn & Htr1 & Hget1 & Hbeat).
    destruct (IH c1 w1) as (c2 & w2 & evs2 & n & Hloop & Htr2 & Hget2 & Hpace & Hids).
    destruct Hbeat as [[Hp Hi] | [Hp Hi]].
    + exists c2, w2, (evs1 ++ evs2), n.
      split. { rewrite (organizeLoop_cons _ _ _ _ _ _ _ _ Hturn). exact Hloop. }
      split. { rewrite Htr2, Htr1. now rewrite app_assoc. }
      split. { rewrite count_app. lia. }
      rewrite pace_app, putIds_app, Hp, Hi. simpl.
      split; [exact Hpace|]. now apply sublist_cons.
    + exists c2, w2, (evs1 ++ evs2), (S n).
      split. { rewrite (organizeLoop_cons _ _ _ _ _ _ _ _ Hturn). exact Hloop. }
      split. { rewrite Htr2, Htr1. now rewrite app_assoc. }
      split. { rewrite count_app. lia. }
      rewrite pace_app, putIds_app, Hp, Hi. simpl.
      split; [now rewrite Hpace|]. now apply sublist_skip.
Qed.

(** X15.  The loop requests at most one move per card, for cards in the
    order they were listed: the cards of its move requests are a sublist
    of the cards it was given. *)
Theorem moves_follow_card_order (z : TimeZone) (LIST_MAPPING : gmap string string)
    (cards : list Card) (counts : nat * nat) (w : World) :
  exists (counts' : nat * nat) (w' : World),
    organizeLoop z LIST_MAPPING cards counts w = (Normal counts', w') /\
    putIds (since w w') `sublist_of` map Card.id cards /\
    (length (putIds (since w w')) <= length cards)%nat.
Proof.
  destruct (organizeLoop_beat z LIST_MAPPING cards counts w)
    as (counts' & w' & evs & n & Hloop & Htr & _ & _ & Hids).
  exists counts', w'. rewrite (since_app _ _ _ Htr).
  split; [exact Hloop|]. split; [exact Hids|].
  apply sublist_length in Hids. now rewrite length_map in Hids.
Qed.

(** X16.  Rate limiting.  In every run that completes, the move requests
    and the timers alternate, each request followed by a 100 ms timer
    before the next request; the run lists the cards once, and lasts at
    least 100 ms per move request. *)
Theorem requests_are_paced (z : TimeZone) (LIST_MAPPING : gmap string string)
    (w w' : World) :
  organizeCards z LIST_MAPPING w = (Normal tt, w') ->
  (exists n : nat, pace (since w w') = concat (replicate n [Move; Pause 100])) /\
  count isGet (since w w') = 1%nat /\
  count isSleep (since w w') = count isPut (since w w') /\
  clock w + 100 * Z.of_nat (count isPut (since w w')) <= clock w'.
Proof.
  rewrite organizeCards_unfold.
  destruct (getAllCards_spec (emit (Console LogStarting) w))
    as (cards & w1 & r & errs & Hget & Htr & Herrs & Hclk & _).
  rewrite Hget. destruct cards as [|c|cs]; try discriminate.
  set (wf := emit (Console (LogFound (Some (length cs)))) w1).
  destruct (organizeLoop_beat z LIST_MAPPING cs (0, 0)%nat wf)
    as (counts & w2 & evs & n & Hloop & Htr2 & Hget2 & Hpace & _).
  destruct (organizeLoop_total z LIST_MAPPING cs (0, 0)%nat wf)
    as (counts' & w2' & evs' & Hloop' & Htr2' & _ & Hsleep & Hclk2).
  rewrite Hloop in Hloop'. injection Hloop' as <- <-.
  rewrite Htr2 in Htr2'. apply app_inv_head in Htr2'. subst evs'.
  rewrite Hloop. intros [= <-].
  assert (Hsince : since w (emit (Console (LogComplete (fst counts) (snd counts))) w2)
            = (Console LogStarting :: Fetch GetCards r :: errs)
              ++ Console (LogFound (Some (length cs))) :: evs
              ++ [Console (LogComplete (fst counts) (snd counts))]).
  { apply since_app. simpl. rewrite Htr2. unfold wf. simpl. rewrite Htr. simpl.
    rewrite <- !app_assoc. reflexivity. }
  assert (Hce : forall p, (forall x, p (Console (ErrFetchingCards x)) = false) ->
                     count p errs = 0%nat).
  { intros p Hp. destruct Herrs as [-> | [x ->]]; [reflexivity|].
    rewrite count_cons, Hp. reflexivity. }
  assert (Hpe : pace errs = []) by (destruct Herrs as [-> | [x ->]]; reflexivity).
  rewrite Hsince. split; [|split; [|split]].
  - exists n. rewrite pace_app. simpl. rewrite Hpe. simpl.
    rewrite pace_app, Hpace. simpl. now rewrite app_nil_r.
  - rewrite count_app, !count_cons, count_app, !count_cons, count_nil,
      !Hce, Hget2 by reflexivity. reflexivity.
  - rewrite !count_app, !count_cons, !count_app, !count_cons, !count_nil,
      !Hce by reflexivity. simpl. lia.
  - rewrite !count_app, !count_cons, !count_app, !count_cons, !count_nil,
      !Hce by reflexivity. simpl in Hclk, Hclk2 |- *. unfold wf in Hclk2. simpl in Hclk2.
    lia.
Qed.

Lemma requests_are_paced_witness :
  let w' := snd (organizeCards (fixed 0) sampleMapping fourCards) in
  organizeCards (fixed 0) sampleMapping fourCards = (Normal tt, w') /\
  (exists n : nat, pace (since fourCards w') = concat (replicate n [Move; Pause 100])) /\
  count isGet (since fourCards w') = 1%nat /\
  count isSleep (since fourCards w') = count isPut (since fourCards w') /\
  clock fourCards + 100 * Z.of_nat (count isPut (since fourCards w')) <= clock w'.
Proof.
  cbv zeta.
  assert (Hrun : organizeCards (fixed 0) sampleMapping fourCards
                 = (Normal tt, snd (organizeCards (fixed 0) sampleMapping fourCards)))
    by (vm_compute; reflexivity).
  split; [exact Hrun|].
  exact (requests_are_paced (fixed 0) sampleMapping fourCards _ Hrun).
Defined.

(** What [getAllCards] returns, by how the listing goes. *)
Lemma getAllCards_value (w : World) :
  fst (getAllCards w)
  = Normal match reply (nextExchange w) with
           | Served => JCards (board w)
           | Answer r =>
             if ok r then match body r with Some j => j | None => JCards [] end
             else JCards []
           | Dropped => JCards []
           end.
Proof.
  unfold getAllCards, try_catch, bind, fetch.
  destruct (reply (nextExchange w)) as [|r|]; simpl; try reflexivity.
  destruct (ok r); simpl; [|reflexivity].
  unfold json. destruct (body r); reflexivity.
Qed.

(** X14.  A listing answered with a 2xx status and JSON that is [null] or
    a single object fails the run as a whole: [organizeCards] throws a
    TypeError and the handler of [GET /organize] answers 500 with
    [success: false].  A listing that fails (no answer, a status outside
    2xx, a body that is not JSON) or that is an array of card objects
    does not, whatever becomes of the moves: the run completes and the
    handler answers 200 with [success: true].  The handler itself never
    throws. *)
Theorem run_fails_only_on_malformed_listing (z : TimeZone)
    (LIST_MAPPING : gmap string string) (w : World) :
  fst (organizeCards z LIST_MAPPING w)
  = (if listingMalformed w then Throw TypeError else Normal tt) /\
  fst (organizeRoute z LIST_MAPPING w)
  = Normal (if listingMalformed w then (500, false) else (200, true)).
Proof.
  assert (Hrun : fst (organizeCards z LIST_MAPPING w)
                 = if listingMalformed w then Throw TypeError else Normal tt).
  { rewrite organizeCards_unfold.
    pose proof (getAllCards_value (emit (Console LogStarting) w)) as Hval.
    destruct (getAllCards (emit (Console LogStarting) w)) as [got w1].
    simpl in Hval. subst got. unfold listingMalformed.
    change (nextExchange (emit (Console LogStarting) w)) with (nextExchange w).
    change (board (emit (Console LogStarting) w)) with (board w).
    assert (Hloop : forall cs w0,
      fst (match organizeLoop z LIST_MAPPING cs (0, 0)%nat w0 with
           | (Normal counts, w2) =>
             (Normal tt, emit (Console (LogComplete (fst counts) (snd counts))) w2)
           | (Throw e, w2) => (Throw e, w2)
           end) = Normal tt).
    { intros cs w0.
      destruct (organizeLoop_total z LIST_MAPPING cs (0, 0)%nat w0)
        as (counts & w2 & evs & -> & _). reflexivity. }
    destruct (reply (nextExchange w)) as [|r|]; try apply Hloop.
    destruct (ok r); [|apply Hloop].
    destruct (body r) as [[|c|cs]|]; simpl; try reflexivity; apply Hloop. }
  split; [exact Hrun|].
  rewrite organizeRoute_unfold.
  destruct (organizeCards z LIST_MAPPING w) as [[[]|e] w']; simpl in Hrun |- *;
    destruct (listingMalformed w); congruence.
Qed.

(** X17.  A list id that is the empty string is no list id: the card is
    reported by the warning, changes neither counter and causes no
    request; its turn ends with the counters it started with, in the
    world it started in plus the warning line.  The loop, which takes the
    cards up one after another, goes on with the cards after it: the run
    over the card and the cards after it completes, its trace is the
    warning followed by the events of the cards after it, and its
    counters are the counters before plus the moves done and failed among
    those events. *)
Theorem empty_list_id_is_skipped (z : TimeZone) (LIST_MAPPING : gmap string string)
    (card : Card) (rest : list Card) (counts : nat * nat) (w : World) :
  LIST_MAPPING !! listName (determineTargetList z (clock w) (Card.due card)) = Some "" ->
  let warned :=
    emit (Console (WarnNoListId
      (listName (determineTargetList z (clock w) (Card.due card))))) w in
  organizeCard z LIST_MAPPING card counts w = (Normal counts, warned) /\
  organizeLoop z LIST_MAPPING (card :: rest) counts w
  = organizeLoop z LIST_MAPPING rest counts warned /\
  isCardLoop (organizeCard z LIST_MAPPING) (organizeLoop z LIST_MAPPING) /\
  organizeLoop z LIST_MAPPING [card] counts w = (Normal counts, warned) /\
  exists (counts' : nat * nat) (w' : World) (evs : list Event),
    organizeLoop z LIST_MAPPING (card :: rest) counts w = (Normal counts', w') /\
    trace w' = trace w ++ Console (WarnNoListId
      (listName (determineTargetList z (clock w) (Card.due card)))) :: evs /\
    organizeLoop z LIST_MAPPING rest counts warned = (Normal counts', w') /\
    tallies evs counts counts'.
Proof.
  intros Hempty warned.
  assert (Hv : verdict z LIST_MAPPING (clock w) card = Unmapped)
    by (unfold verdict; now rewrite Hempty).
  pose proof (organizeCard_unmapped z LIST_MAPPING card counts w Hv) as Hturn.
  pose proof (organizeLoop_cons z LIST_MAPPING card rest _ _ _ _ Hturn) as Hstep.
  split; [exact Hturn|]. split; [exact Hstep|].
  split; [apply organizeLoop_isCardLoop|].
  split; [exact (organizeLoop_cons z LIST_MAPPING card [] _ _ _ _ Hturn)|].
  destruct (organizeLoop_total z LIST_MAPPING rest counts warned)
    as (counts' & w' & evs & Hrun & Htr & Htal & _).
  exists counts', w', evs.
  split; [now rewrite Hstep|].
  split; [rewrite Htr; unfold warned, emit; simpl; now rewrite <- app_assoc|].
  split; [exact Hrun|exact Htal].
Qed.

Lemma empty_list_id_is_skipped_witness :
  let mapping := <["Later" := ""]> sampleMapping in
  let w := quiet [cardA; cardB] [] in
  mapping !! listName (determineTargetList (fixed 0) (clock w) (Card.due cardA)) = Some "" /\
  organizeCard (fixed 0) mapping cardA (0, 0)%nat w
  = (Normal (0, 0)%nat, emit (Console (WarnNoListId "Later")) w) /\
  organizeLoop (fixed 0) mapping [cardA; cardB] (0, 0)%nat w
  = organizeLoop (fixed 0) mapping [cardB] (0, 0)%nat
      (emit (Console (WarnNoListId "Later")) w).
Proof.
  cbv zeta.
  assert (Hempty : <["Later" := ""]> sampleMapping
            !! listName (determineTargetList (fixed 0)
                 (clock (quiet [cardA; cardB] [])) (Card.due cardA)) = Some "")
    by (vm_compute; reflexivity).
  split; [exact Hempty|].
  destruct (empty_list_id_is_skipped (fixed 0) (<["Later" := ""]> sampleMapping)
              cardA [cardB] (0, 0)%nat (quiet [cardA; cardB] []) Hempty)
    as (Hturn & Hstep & _).
  split; [exact Hturn|exact Hstep].
Defined.

(** X18.  A run over a board in order reads and writes nothing but its
    log: when the API serves the listing and no listed card needs a move,
    the run requests no move, sets no timer, takes no longer than the
    listing, leaves the board alone and reports moved 0, errors 0. *)
Theorem run_in_order_is_idle (z : TimeZone) (LIST_MAPPING : gmap string string)
    (w : World) :
  reply (nextExchange w) = Served ->
  Forall (fun c => forall listId,
            verdict z LIST_MAPPING (clock w + Z.of_N (took (nextExchange w))) c
            <> MoveTo listId) (board w) ->
  exists w' : World,
    organizeCards z LIST_MAPPING w = (Normal tt, w') /\
    board w' = board w /\
    count isPut (since w w') = 0%nat /\
    count isSleep (since w w') = 0%nat /\
    clock w' = clock w + Z.of_N (took (nextExchange w)) /\
    last (trace w') = Some (Console (LogComplete 0 0)).
Proof.
  intros Hserved Hall.
  destruct (getAllCards_spec (emit (Console LogStarting) w))
    as (cards & w1 & r & errs & Hget & Htr & _ & Hclk & Hb & _ & _ & _ & Hs).
  destruct (Hs Hserved) as [-> ->]. simpl in Hclk, Hb, Htr.
  change (board (emit (Console LogStarting) w)) with (board w) in Hget.
  destruct (organizeLoop_settled z LIST_MAPPING (board w) (0, 0)%nat
              (emit (Console (LogFound (Some (length (board w))))) w1))
    as (w2 & evs & Hloop & Htr2 & Hput & Hsleep & Hclk2 & Hb2 & _).
  { simpl. now rewrite Hclk. }
  exists (emit (Console (LogComplete 0 0)) w2).
  split. { rewrite organizeCards_unfold, Hget. now rewrite Hloop. }
  assert (Hsince : since w (emit (Console (LogComplete 0 0)) w2)
            = Console LogStarting :: Fetch GetCards r
              :: Console (LogFound (Some (length (board w)))) :: evs
              ++ [Console (LogComplete 0 0)]).
  { apply since_app. simpl. rewrite Htr2. simpl. rewrite Htr.
    rewrite <- !app_assoc. reflexivity. }
  rewrite Hsince, !count_cons, !count_app, !count_cons, !count_nil, Hput, Hsleep.
  simpl in Hclk2, Hb2 |- *.
  change (nextExchange (emit (Console LogStarting) w)) with (nextExchange w) in Hclk.
  repeat split; try congruence. apply last_snoc.
Qed.

Lemma run_in_order_is_idle_witness :
  let w := quiet [cardE] [ {| took := 250%N; reply := Served |} ] in
  reply (nextExchange w) = Served /\
  Forall (fun c => forall listId,
            verdict (fixed 0) sampleMapping (clock w + Z.of_N (took (nextExchange w))) c
            <> MoveTo listId) (board w) /\
  exists w' : World,
    organizeCards (fixed 0) sampleMapping w = (Normal tt, w') /\
    board w' = board w /\
    count isPut (since w w') = 0%nat /\
    count isSleep (since w w') = 0%nat /\
    clock w' = clock w + Z.of_N (took (nextExchange w)) /\
    last (trace w') = Some (Console (LogComplete 0 0)).
Proof.
  cbv zeta.
  assert (Hall : Forall (fun c => forall listId,
            verdict (fixed 0) sampleMapping
              (clock (quiet [cardE] [ {| took := 250%N; reply := Served |} ])
               + Z.of_N (took (nextExchange
                   (quiet [cardE] [ {| took := 250%N; reply := Served |} ])))) c
            <> MoveTo listId)
          (board (quiet [cardE] [ {| took := 250%N; reply := Served |} ]))).
  { repeat constructor. intros listId. vm_compute. discriminate. }
  split; [reflexivity|]. split; [exact Hall|].
  exact (run_in_order_is_idle (fixed 0) sampleMapping
           (quiet [cardE] [ {| took := 250%N; reply := Served |} ]) eq_refl Hall).
Defined.


